(** * Engineering Study Materials: the catalog's data layer

    A shallow embedding of [app.py]: the manifest tree
    (Year / Branch / Subject / Resource), the find-or-create operations,
    [add_resource], [flatten_resources], the search filter, the file-name
    allocator [unique_filename], and the handlers of the add form and of
    the delete buttons.

    Conventions of the embedding.
    - A Python [str] is a [string]; [==] on names is string equality.
    - The dictionaries of the manifest are records.  The keys the code
      indexes directly ([y["name"]], [year_obj["branches"]], ...) are
      plain fields; the keys of a resource, which [flatten_resources]
      reads with [.get], are optional fields.
    - The manifest is a tree without sharing ([json.load] builds fresh
      objects and the code only ever appends fresh dictionaries), so a
      reference to a node is modelled by its position in its parent's
      list together with its current value, and a mutation through the
      reference is written back at that position.
    - Storage is a finite map from paths to file contents together with
      the log of the operations that changed it.  Directories, access
      rights and device failures are outside the model. *)

From Stdlib Require Import Ascii.
From stdpp Require Import base option list gmap strings pretty fin_maps fin_sets.


(** ** Python results *)

(** The exceptions the modelled statements raise.  [OutOfFuel] is not an
    exception of Python: it marks a loop of the model stopped by its
    bound. *)
Inductive exn : Type :=
  | KeyError
  | AttributeError
  | ValueError
  | FileNotFoundError
  | JSONDecodeError
  | OutOfFuel.

Inductive result (A : Type) : Type :=
  | Ok (a : A)
  | Raise (e : exn).
Arguments Ok {A} a.
Arguments Raise {A} e.

(** ** The manifest tree *)

Record Resource : Type := mkResource {
  title : option string;
  rtype : option string;
  url : option string;
  path : option string;
  meta : option (gmap string string)
}.

Record Subject : Type := mkSubject {
  s_name : string;
  resources : list Resource
}.

Record Branch : Type := mkBranch {
  b_name : string;
  subjects : list Subject
}.

Record Year : Type := mkYear {
  y_name : string;
  branches : list Branch
}.

Record Manifest : Type := mkManifest {
  years : list Year
}.

#[global] Instance Resource_eq_dec : EqDecision Resource.
Proof. solve_decision. Defined.
#[global] Instance Subject_eq_dec : EqDecision Subject.
Proof. solve_decision. Defined.
#[global] Instance Branch_eq_dec : EqDecision Branch.
Proof. solve_decision. Defined.
#[global] Instance Year_eq_dec : EqDecision Year.
Proof. solve_decision. Defined.
#[global] Instance Manifest_eq_dec : EqDecision Manifest.
Proof. solve_decision. Defined.

(** The document written by [ensure_dirs]: [{"years": []}]. *)
Definition empty_manifest : Manifest := {| years := [] |}.

(** ** Find or create *)

(** [for y in manifest["years"]: if y["name"] == year_name: return y],
    then the append.  The result is the manifest after the call, and the
    returned object as its position in [manifest["years"]] and its
    value. *)
Definition find_or_create_year (manifest : Manifest) (year_name : string)
  : Manifest * (nat * Year) :=
  match list_find (λ y, y_name y = year_name) (years manifest) with
  | Some (i, y) => (manifest, (i, y))
  | None =>
      let new := {| y_name := year_name; branches := [] |} in
      ({| years := years manifest ++ [new] |}, (length (years manifest), new))
  end.

Definition find_or_create_branch (year_obj : Year) (branch_name : string)
  : Year * (nat * Branch) :=
  match list_find (λ b, b_name b = branch_name) (branches year_obj) with
  | Some (i, b) => (year_obj, (i, b))
  | None =>
      let new := {| b_name := branch_name; subjects := [] |} in
      ({| y_name := y_name year_obj; branches := branches year_obj ++ [new] |},
       (length (branches year_obj), new))
  end.

Definition find_or_create_subject (branch_obj : Branch) (subject_name : string)
  : Branch * (nat * Subject) :=
  match list_find (λ s, s_name s = subject_name) (subjects branch_obj) with
  | Some (i, s) => (branch_obj, (i, s))
  | None =>
      let new := {| s_name := subject_name; resources := [] |} in
      ({| b_name := b_name branch_obj; subjects := subjects branch_obj ++ [new] |},
       (length (subjects branch_obj), new))
  end.

(** [n] successive calls of one operation on the same object: the object
    after the last call and the values the calls returned, in order. *)
Fixpoint call_seq {T R : Type} (call : T → T * R) (n : nat) (t : T) : T * list R :=
  match n with
  | 0 => (t, [])
  | S k =>
      let '(t1, r) := call t in
      let '(t2, rs) := call_seq call k t1 in
      (t2, r :: rs)
  end.


(** ** Library functions

    The functions of the Python library that the code calls and that are
    not part of this program: the JSON codec used with [indent=2] and
    [ensure_ascii=False], [str.lower], [str.strip] and
    [os.path.splitext].  The program is modelled over any implementation
    of them. *)

Class PyLib : Type := {
  json_dump : Manifest → string;
  json_load : string → option Manifest;
  str_lower : string → string;
  str_strip : string → string;
  splitext : string → string * string
}.

(** ** Storage *)

Inductive fs_op : Type :=
  | OpMkdir (p : string)
  | OpWrite (p : string)
  | OpRemove (p : string).

Record filesystem : Type := mkFs {
  files : gmap string string;
  oplog : list fs_op
}.

Definition MANIFEST_FILE : string := "manifest.json".
Definition STATIC_DIR : string := "static".

(** [Path(p).exists()] *)
Definition path_exists (fs : filesystem) (p : string) : bool :=
  bool_decide (p ∈ dom (files fs)).

(** [os.path.exists(p)]; the empty path never exists. *)
Definition os_path_exists (fs : filesystem) (p : string) : bool :=
  if decide (p = "") then false else path_exists fs p.

(** [folder / name] for a folder and a file name; the program records the
    same file as [f"{STATIC_DIR}/{safe_name}"]. *)
Definition path_join (folder name : string) : string :=
  folder +:+ "/" +:+ name.

(** [Path(p).mkdir(parents=True, exist_ok=True)] *)
Definition mkdir (fs : filesystem) (p : string) : filesystem :=
  {| files := files fs; oplog := oplog fs ++ [OpMkdir p] |}.

(** [with open(p, "w") as f: f.write(content)] *)
Definition write_file (fs : filesystem) (p content : string) : filesystem :=
  {| files := <[p := content]> (files fs); oplog := oplog fs ++ [OpWrite p] |}.

(** [os.remove(p)] *)
Definition os_remove (fs : filesystem) (p : string) : result filesystem :=
  if path_exists fs p
  then Ok {| files := delete p (files fs); oplog := oplog fs ++ [OpRemove p] |}
  else Raise FileNotFoundError.

(** The paths of the files stored under [folder]. *)
Definition folder_entries (fs : filesystem) (folder : string) : gset string :=
  filter (λ p, String.prefix (folder +:+ "/") p = true) (dom (files fs)).

Section program.
Context `{PyLib}.

(** *** Manifest store *)

Definition ensure_dirs (fs : filesystem) : filesystem :=
  let fs := mkdir fs STATIC_DIR in
  if path_exists fs MANIFEST_FILE then fs
  else write_file fs MANIFEST_FILE (json_dump empty_manifest).

Definition load_manifest (fs : filesystem) : result Manifest * filesystem :=
  let fs := ensure_dirs fs in
  match files fs !! MANIFEST_FILE with
  | None => (Raise FileNotFoundError, fs)
  | Some doc =>
      match json_load doc with
      | Some manifest => (Ok manifest, fs)
      | None => (Raise JSONDecodeError, fs)
      end
  end.

Definition save_manifest (manifest : Manifest) (fs : filesystem) : filesystem :=
  write_file fs MANIFEST_FILE (json_dump manifest).

(** *** File names *)

(** The [while] loop of [unique_filename], run for at most [fuel] tests
    of its condition; [None] when the tests are used up. *)
Fixpoint unique_filename_loop (fuel : nat) (fs : filesystem)
    (folder base ext : string) (counter : nat) (candidate : string)
  : option string :=
  match fuel with
  | 0 => None
  | S fuel =>
      if path_exists fs (path_join folder candidate)
      then unique_filename_loop fuel fs folder base ext (S counter)
             (base +:+ "_" +:+ pretty counter +:+ ext)
      else Some candidate
  end.

Definition unique_filename (fuel : nat) (fs : filesystem) (folder name : string)
  : option string :=
  let '(base, ext) := splitext name in
  unique_filename_loop fuel fs folder base ext 1 (base +:+ ext).

(** *** Adding a resource *)

Definition add_resource (manifest : Manifest)
    (year_name branch_name subject_name : string) (resource : Resource)
    (fs : filesystem) : Manifest * filesystem :=
  let '(manifest, (yi, year_obj)) := find_or_create_year manifest year_name in
  let '(year_obj, (bi, branch_obj)) := find_or_create_branch year_obj branch_name in
  let '(branch_obj, (si, subject_obj)) := find_or_create_subject branch_obj subject_name in
  let subject_obj :=
    {| s_name := s_name subject_obj;
       resources := resources subject_obj ++ [resource] |} in
  let branch_obj :=
    {| b_name := b_name branch_obj;
       subjects := <[si := subject_obj]> (subjects branch_obj) |} in
  let year_obj :=
    {| y_name := y_name year_obj;
       branches := <[bi := branch_obj]> (branches year_obj) |} in
  let manifest := {| years := <[yi := year_obj]> (years manifest) |} in
  (manifest, save_manifest manifest fs).
End program.

(** *** Flatten *)

Record FlatRecord : Type := mkFlat {
  f_year : string;
  f_branch : string;
  f_subject : string;
  f_title : option string;
  f_type : option string;
  f_url : option string;
  f_path : option string
}.

#[global] Instance FlatRecord_eq_dec : EqDecision FlatRecord.
Proof. solve_decision. Defined.

Definition flat_record (year : Year) (branch : Branch) (subject : Subject)
    (res : Resource) : FlatRecord :=
  {| f_year := y_name year;
     f_branch := b_name branch;
     f_subject := s_name subject;
     f_title := title res;
     f_type := rtype res;
     f_url := url res;
     f_path := path res |}.

(** The four nested [for] loops, each [flat.append] extending the
    accumulator at its end. *)
Definition flatten_resources (manifest : Manifest) : list FlatRecord :=
  foldl (λ flat year,
    foldl (λ flat branch,
      foldl (λ flat subject,
        foldl (λ flat res, flat ++ [flat_record year branch subject res])
          flat (resources subject))
        flat (subjects branch))
      flat (branches year))
    [] (years manifest).

(** *** Search *)

(** [needle in hay] on strings. *)
Fixpoint str_in (needle hay : string) : bool :=
  String.prefix needle hay ||
  match hay with
  | EmptyString => false
  | String _ rest => str_in needle rest
  end.

(** A string is true when it is not empty. *)
Definition truthy (s : string) : bool := negb (String.eqb s "").

(** [xs.remove(x)]: drops the first element equal to [x]; [ValueError]
    (here [None]) when there is none. *)
Fixpoint py_remove {A : Type} `{EqDecision A} (x : A) (l : list A)
  : option (list A) :=
  match l with
  | [] => None
  | y :: l => if decide (y = x) then Some l else (y ::.) <$> py_remove x l
  end.

Section pages.
Context `{PyLib}.

(** The condition of the comprehension for one record.  [r["title"]]
    comes from [res.get("title")]: calling [.lower()] on [None] raises. *)
Definition search_condition (ql : string) (r : FlatRecord) : result bool :=
  match f_title r with
  | None => Raise AttributeError
  | Some t =>
      Ok (str_in ql (str_lower t)
          || str_in ql (str_lower (f_subject r))
          || str_in ql (str_lower (f_branch r))
          || str_in ql (str_lower (f_year r)))
  end.

(** [[r for r in flat if ...]] *)
Fixpoint search_comprehension (ql : string) (flat : list FlatRecord)
  : result (list FlatRecord) :=
  match flat with
  | [] => Ok []
  | r :: flat =>
      match search_condition ql r with
      | Raise e => Raise e
      | Ok keep =>
          match search_comprehension ql flat with
          | Raise e => Raise e
          | Ok results => Ok (if keep then r :: results else results)
          end
      end
  end.

(** What the display section shows for the query [q]. *)
Inductive page : Type :=
  | SearchResults (results : list FlatRecord)
  | BrowseMaterials.

Definition display (q : string) (manifest : Manifest) : result page :=
  if truthy q then
    let ql := str_lower q in
    match search_comprehension ql (flatten_resources manifest) with
    | Raise e => Raise e
    | Ok results => Ok (SearchResults results)
    end
  else Ok BrowseMaterials.

(** *** The add form *)

Record upload : Type := mkUpload {
  up_name : string;
  up_buffer : string
}.

(** The values of the widgets of [add_resource_form] in one run of the
    script. *)
Record form : Type := mkForm {
  in_year : string;
  in_branch : string;
  in_subject : string;
  in_title : string;
  in_type : string;
  in_url : string;
  in_file : option upload;
  in_submitted : bool
}.

(** The options of the [Resource Type] select box. *)
Definition res_type_options : list string := ["link"; "upload_file"].

Inductive form_outcome : Type :=
  | NotSubmitted
  | FormError (message : string)
  | ResourceAdded (resource : Resource) (manifest : Manifest) (fs : filesystem).

Definition link_resource (title url now : string) : Resource :=
  {| title := Some title; rtype := Some "link"; url := Some url;
     path := None; meta := Some {[ "added" := now ]} |}.

Definition file_resource (title safe_name now : string) : Resource :=
  {| title := Some title; rtype := Some "file"; url := None;
     path := Some (STATIC_DIR +:+ "/" +:+ safe_name);
     meta := Some {[ "added" := now ]} |}.

(** The body of the form, [now] being [str(datetime.datetime.utcnow())].
    [unique_filename] is run with one more test than there are stored
    files. *)
Definition add_resource_form (f : form) (now : string)
    (manifest : Manifest) (fs : filesystem) : result form_outcome :=
  let res_type := in_type f in
  let url := if decide (res_type = "link") then in_url f else "" in
  let uploaded_file := if decide (res_type = "link") then None else in_file f in
  if in_submitted f then
    if negb (truthy (in_year f) && truthy (in_branch f)
             && truthy (in_subject f) && truthy (in_title f))
    then Ok (FormError "Please fill all required fields.")
    else
      if bool_decide (res_type = "link") && negb (truthy url)
      then Ok (FormError "Please provide a link URL.")
      else
        let fs := ensure_dirs fs in
        if decide (res_type = "file") then
          match uploaded_file with
          | None => Raise AttributeError
          | Some uploaded_file =>
              match unique_filename (S (size (files fs))) fs STATIC_DIR
                      (up_name uploaded_file) with
              | None => Raise OutOfFuel
              | Some safe_name =>
                  let save_path := path_join STATIC_DIR safe_name in
                  let fs := write_file fs save_path (up_buffer uploaded_file) in
                  let resource := file_resource (in_title f) safe_name now in
                  let '(manifest, fs) :=
                    add_resource manifest (str_strip (in_year f))
                      (str_strip (in_branch f)) (str_strip (in_subject f))
                      resource fs in
                  Ok (ResourceAdded resource manifest fs)
              end
          end
        else
          let resource := link_resource (in_title f) url now in
          let '(manifest, fs) :=
            add_resource manifest (str_strip (in_year f))
              (str_strip (in_branch f)) (str_strip (in_subject f))
              resource fs in
          Ok (ResourceAdded resource manifest fs)
  else Ok NotSubmitted.

(** *** The delete buttons *)

(** The button of the year [year] of the browse loop. *)
Definition delete_year (year : Year) (manifest : Manifest) (fs : filesystem)
  : result (Manifest * filesystem) :=
  match py_remove year (years manifest) with
  | None => Raise ValueError
  | Some ys =>
      let manifest := {| years := ys |} in
      Ok (manifest, save_manifest manifest fs)
  end.

(** The two statements of the resource button that touch the resource:
    the removal of the backing file, then [subject["resources"].remove]. *)
Definition remove_backing_file (res : Resource) (fs : filesystem)
  : result filesystem :=
  match rtype res with
  | None => Raise KeyError
  | Some t =>
      if bool_decide (t = "file") && os_path_exists fs (default "" (path res))
      then match path res with
           | None => Raise KeyError
           | Some p => os_remove fs p
           end
      else Ok fs
  end.

(** The button of the resource at position [ri] of the subject at
    positions [yi], [bi], [si] of the browse loops; [None] when the
    loops reach no such resource. *)
Definition delete_resource (yi bi si ri : nat) (manifest : Manifest)
    (fs : filesystem) : option (result (Manifest * filesystem)) :=
  year ← years manifest !! yi;
  branch ← branches year !! bi;
  subject ← subjects branch !! si;
  res ← resources subject !! ri;
  Some
    match remove_backing_file res fs with
    | Raise e => Raise e
    | Ok fs =>
        match py_remove res (resources subject) with
        | None => Raise ValueError
        | Some rs =>
            let subject := {| s_name := s_name subject; resources := rs |} in
            let branch :=
              {| b_name := b_name branch;
                 subjects := <[si := subject]> (subjects branch) |} in
            let year :=
              {| y_name := y_name year;
                 branches := <[bi := branch]> (branches year) |} in
            let manifest := {| years := <[yi := year]> (years manifest) |} in
            Ok (manifest, save_manifest manifest fs)
        end
    end.
End pages.

(** ** The page

    One run of the script.  The widgets that take input are represented
    by the values they return in the run, given per position in the
    browse loops; the widgets that show something are logged in the
    order in which they are drawn.  [st.experimental_rerun()] ends the
    run.  The identifiers Streamlit derives from the [key] arguments are
    outside the model. *)

Inductive widget : Type :=
  | StTitle (body : string)
  | StHeader (body : string)
  | StMarkdown (body : string)
  | StWrite (body : string)
  | StInfo (body : string)
  | StSuccess (body : string)
  | StWarning (body : string)
  | StError (body : string)
  | StCaption (body : string)
  | StExpander (label : string)
  | StDownloadButton (label data file_name : string).

(** The exceptions of the page: those of [exn], and the [TypeError] of
    [open(None)]. *)
Inductive page_exn : Type :=
  | PyExn (e : exn)
  | TypeError.

(** How a part of the script ends: the script goes on, the run is
    restarted, or an exception ends it. *)
Inductive signal : Type :=
  | Next
  | Rerun
  | Raised (e : page_exn).

Record page_state : Type := mkPage {
  shown : list widget;
  mem : Manifest;
  disk : filesystem
}.

Definition show (w : widget) (st : page_state) : page_state :=
  {| shown := shown st ++ [w]; mem := mem st; disk := disk st |}.

(** Sequencing: the rest of the script runs when the part before it
    ended with [Next]. *)
Definition and_then (r : page_state * signal)
    (k : page_state → page_state * signal) : page_state * signal :=
  match r with
  | (st, Next) => k st
  | stop => stop
  end.

Notation "r >>> k" := (and_then r k) (at level 61, left associativity).

(** [for x in l: body], [body] receiving the position of [x]. *)
Fixpoint for_each {A : Type} (body : nat → A → page_state → page_state * signal)
    (i : nat) (l : list A) (st : page_state) : page_state * signal :=
  match l with
  | [] => (st, Next)
  | x :: l => body i x st >>> for_each body (S i) l
  end.

(** What an edit field and a delete button return in the run: the text
    entered if any, and whether the button was pressed. *)
Record control_input : Type := mkControl {
  edited : option string;
  delete_clicked : bool
}.

Definition idle : control_input := {| edited := None; delete_clicked := false |}.

(** [st.text_input(..., value=v)] *)
Definition text_value (v : string) (c : control_input) : string :=
  default v (edited c).

Record browse_input : Type := mkBrowseInput {
  year_in : nat → control_input;
  branch_in : nat → nat → control_input;
  subject_in : nat → nat → nat → control_input;
  resource_in : nat → nat → nat → nat → control_input
}.

(** The formatting of an optional value in an f-string. *)
Definition to_str (v : option string) : string := default "None" v.

(** The manifest after an assignment through a loop variable: the node at
    the position of the loop variable is replaced. *)
Definition put_year (yi : nat) (year : Year) (manifest : Manifest) : Manifest :=
  {| years := <[yi := year]> (years manifest) |}.

Definition put_branch (yi : nat) (year : Year) (bi : nat) (branch : Branch)
    (manifest : Manifest) : Manifest :=
  put_year yi {| y_name := y_name year;
                 branches := <[bi := branch]> (branches year) |} manifest.

Definition put_subject (yi : nat) (year : Year) (bi : nat) (branch : Branch)
    (si : nat) (subject : Subject) (manifest : Manifest) : Manifest :=
  put_branch yi year bi
    {| b_name := b_name branch;
       subjects := <[si := subject]> (subjects branch) |} manifest.

Definition put_resource (yi : nat) (year : Year) (bi : nat) (branch : Branch)
    (si : nat) (subject : Subject) (ri : nat) (res : Resource)
    (manifest : Manifest) : Manifest :=
  put_subject yi year bi branch si
    {| s_name := s_name subject;
       resources := <[ri := res]> (resources subject) |} manifest.

Section script.
Context `{PyLib}.
(** [os.path.basename] *)
Variable basename : string → string.

(** [save_manifest(manifest)], a message, and the rerun. *)
Definition saved (manifest : Manifest) (fs : filesystem) (message : widget)
    (st : page_state) : page_state * signal :=
  (show message {| shown := shown st; mem := manifest;
                   disk := save_manifest manifest fs |}, Rerun).

(** *** Controls of a year, a branch and a subject *)

Definition year_controls (c : control_input) (yi : nat) (year : Year)
    (st : page_state) : page_state * signal :=
  let edit_year := text_value (y_name year) c in
  if bool_decide (edit_year ≠ y_name year) then
    let year := {| y_name := edit_year; branches := branches year |} in
    saved (put_year yi year (mem st)) (disk st) (StSuccess "✅ Year renamed.") st
  else if delete_clicked c then
    match py_remove year (years (mem st)) with
    | None => (st, Raised (PyExn ValueError))
    | Some ys => saved {| years := ys |} (disk st) (StWarning "❌ Year deleted.") st
    end
  else (st, Next).

Definition branch_controls (c : control_input) (yi : nat) (year : Year)
    (bi : nat) (branch : Branch) (st : page_state) : page_state * signal :=
  let edit_branch := text_value (b_name branch) c in
  if bool_decide (edit_branch ≠ b_name branch) then
    let branch := {| b_name := edit_branch; subjects := subjects branch |} in
    saved (put_branch yi year bi branch (mem st)) (disk st)
      (StSuccess "✅ Branch renamed.") st
  else if delete_clicked c then
    match py_remove branch (branches year) with
    | None => (st, Raised (PyExn ValueError))
    | Some bs =>
        saved (put_year yi {| y_name := y_name year; branches := bs |} (mem st))
          (disk st) (StWarning "❌ Branch deleted.") st
    end
  else (st, Next).

Definition subject_controls (c : control_input) (yi : nat) (year : Year)
    (bi : nat) (branch : Branch) (si : nat) (subject : Subject)
    (st : page_state) : page_state * signal :=
  let edit_subject := text_value (s_name subject) c in
  if bool_decide (edit_subject ≠ s_name subject) then
    let subject := {| s_name := edit_subject; resources := resources subject |} in
    saved (put_subject yi year bi branch si subject (mem st)) (disk st)
      (StSuccess "✅ Subject renamed.") st
  else if delete_clicked c then
    match py_remove subject (subjects branch) with
    | None => (st, Raised (PyExn ValueError))
    | Some ss =>
        saved (put_branch yi year bi
                 {| b_name := b_name branch; subjects := ss |} (mem st))
          (disk st) (StWarning "❌ Subject deleted.") st
    end
  else (st, Next).

(** *** A resource of the browse view *)

(** The title and the link or the download button of the resource. *)
Definition render_resource (res : Resource) (st : page_state)
  : page_state * signal :=
  match title res with
  | None => (st, Raised (PyExn KeyError))
  | Some t =>
      let st := show (StWrite ("**" +:+ t +:+ "**")) st in
      match rtype res with
      | None => (st, Raised (PyExn KeyError))
      | Some ty =>
          if decide (ty = "link") then
            match url res with
            | None => (st, Raised (PyExn KeyError))
            | Some u =>
                (show (StMarkdown ("[🔗 Open Link](" +:+ u +:+ ")")) st, Next)
            end
          else
            match path res with
            | None => (st, Raised (PyExn KeyError))
            | Some p =>
                match files (disk st) !! p with
                | None => (st, Raised (PyExn FileNotFoundError))
                | Some data =>
                    (show (StDownloadButton "⬇️ Download" data (basename p)) st,
                     Next)
                end
            end
      end
  end.

(** The edit field of the title and the delete button. *)
Definition resource_controls (c : control_input) (yi : nat) (year : Year)
    (bi : nat) (branch : Branch) (si : nat) (subject : Subject)
    (ri : nat) (res : Resource) (st : page_state) : page_state * signal :=
  match title res with
  | None => (st, Raised (PyExn KeyError))
  | Some t =>
      let new_title := text_value t c in
      if bool_decide (new_title ≠ t) then
        let res := {| title := Some new_title; rtype := rtype res;
                      url := url res; path := path res; meta := meta res |} in
        saved (put_resource yi year bi branch si subject ri res (mem st))
          (disk st) (StSuccess "✅ Resource title updated.") st
      else if delete_clicked c then
        match remove_backing_file res (disk st) with
        | Raise e => (st, Raised (PyExn e))
        | Ok fs =>
            match py_remove res (resources subject) with
            | None =>
                ({| shown := shown st; mem := mem st; disk := fs |},
                 Raised (PyExn ValueError))
            | Some rs =>
                saved (put_subject yi year bi branch si
                         {| s_name := s_name subject; resources := rs |} (mem st))
                  fs (StWarning "❌ Resource deleted.") st
            end
        end
      else (st, Next)
  end.

Definition resource_block (admin_mode : bool) (c : control_input)
    (yi : nat) (year : Year) (bi : nat) (branch : Branch)
    (si : nat) (subject : Subject) (ri : nat) (res : Resource)
    (st : page_state) : page_state * signal :=
  render_resource res st >>> λ st,
  if admin_mode
  then resource_controls c yi year bi branch si subject ri res st
  else (st, Next).

(** *** The browse view *)

Definition browse_page (admin_mode : bool) (inputs : browse_input)
    (st : page_state) : page_state * signal :=
  let st := show (StMarkdown "## 📁 Browse Materials") st in
  for_each (λ yi year st,
    let st := show (StExpander ("📅 " +:+ y_name year)) st in
    (if admin_mode then year_controls (year_in inputs yi) yi year st
     else (st, Next)) >>>
    for_each (λ bi branch st,
      let st := show (StExpander ("🏷️ " +:+ b_name branch)) st in
      (if admin_mode
       then branch_controls (branch_in inputs yi bi) yi year bi branch st
       else (st, Next)) >>>
      for_each (λ si subject st,
        let st := show (StExpander ("📘 " +:+ s_name subject)) st in
        (if admin_mode
         then subject_controls (subject_in inputs yi bi si)
                yi year bi branch si subject st
         else (st, Next)) >>>
        for_each (λ ri res,
          resource_block admin_mode (resource_in inputs yi bi si ri)
            yi year bi branch si subject ri res)
          0 (resources subject))
        0 (subjects branch))
      0 (branches year))
    0 (years (mem st)) st.

(** *** The search view *)

Definition render_result (r : FlatRecord) (st : page_state)
  : page_state * signal :=
  let st :=
    show (StWrite ("**" +:+ to_str (f_title r) +:+ "** — " +:+ f_year r
                   +:+ " / " +:+ f_branch r +:+ " / " +:+ f_subject r)) st in
  if decide (f_type r = Some "link") then
    (show (StMarkdown ("[🔗 Open Link](" +:+ to_str (f_url r) +:+ ")")) st, Next)
  else
    match f_path r with
    | None => (st, Raised TypeError)
    | Some p =>
        match files (disk st) !! p with
        | None => (st, Raised (PyExn FileNotFoundError))
        | Some data =>
            (show (StDownloadButton "⬇️ Download File" data (basename p)) st, Next)
        end
    end.

Definition search_page (q : string) (st : page_state) : page_state * signal :=
  let st := show (StMarkdown ("### 🔍 Search Results for: `" +:+ q +:+ "`")) st in
  let ql := str_lower q in
  match search_comprehension ql (flatten_resources (mem st)) with
  | Raise e => (st, Raised (PyExn e))
  | Ok [] => (show (StInfo "No results found.") st, Next)
  | Ok results => for_each (λ _, render_result) 0 results st
  end.

Definition display_section (q : string) (admin_mode : bool)
    (inputs : browse_input) (st : page_state) : page_state * signal :=
  let st := show (StMarkdown "---") st in
  if truthy q then search_page q st else browse_page admin_mode inputs st.

(** *** The controls column and the add form *)

Definition controls_column (admin_mode download_clicked : bool)
    (st : page_state) : page_state * signal :=
  let st := show (StHeader "Controls") st in
  let st := if admin_mode then show (StInfo "⚙️ Admin mode enabled. Add, Edit, or Delete items.") st else st in
  let st := show (StMarkdown "---") st in
  if download_clicked then
    match files (disk st) !! MANIFEST_FILE with
    | None => (st, Raised (PyExn FileNotFoundError))
    | Some data =>
        (show (StDownloadButton "Click to download manifest.json" data "manifest.json") st, Next)
    end
  else (st, Next).

Definition form_section (admin_mode : bool) (f : form) (now : string)
    (st : page_state) : page_state * signal :=
  if admin_mode then
    let st := show (StMarkdown "## ➕ Add New Resource") st in
    match add_resource_form f now (mem st) (disk st) with
    | Raise e => (st, Raised (PyExn e))
    | Ok NotSubmitted => (st, Next)
    | Ok (FormError message) => (show (StError message) st, Next)
    | Ok (ResourceAdded _ manifest fs) =>
        (show (StSuccess "✅ Resource added successfully!")
           {| shown := shown st; mem := manifest; disk := fs |}, Next)
    end
  else (st, Next).

(** *** The script *)

Record script_input : Type := mkInput {
  admin_mode : bool;
  download_clicked : bool;
  q : string;
  add_form : form;
  now : string;
  browse_in : browse_input
}.

(** A run of the script on the storage [fs]: [load_manifest] fails, or
    the page runs on the loaded manifest. *)
Inductive run : Type :=
  | LoadFailed (e : exn) (fs : filesystem)
  | Ran (st : page_state) (s : signal).

Definition script (i : script_input) (fs : filesystem) : run :=
  match load_manifest fs with
  | (Raise e, fs) => LoadFailed e fs
  | (Ok manifest, fs) =>
      let st := {| shown := [StTitle "📚 Engineering Study Materials"]; mem := manifest; disk := fs |} in
      let '(st, s) :=
        controls_column (admin_mode i) (download_clicked i) st >>>
        form_section (admin_mode i) (add_form i) (now i) >>>
        display_section (q i) (admin_mode i) (browse_in i) >>> λ st,
        (show (StCaption "Tip: Use Admin mode to manage items. For Drive files, use public share links.") (show (StMarkdown "---") st), Next) in
      Ran st s
  end.
End script.

(** * Specification-side definitions *)

(** ** Find or create *)

Definition new_year (n : string) : Year := {| y_name := n; branches := [] |}.
Definition new_branch (n : string) : Branch := {| b_name := n; subjects := [] |}.
Definition new_subject (n : string) : Subject := {| s_name := n; resources := [] |}.

(** The three operations run the same loop over a list of nodes with a
    name; [scan] is that loop on the bare list, used to reason about the
    three at once.  [scanned] is the list it leaves. *)
Definition scan {A : Type} (nm : A → string) (mk : string → A)
    (l : list A) (n : string) : list A * (nat * A) :=
  match list_find (λ x, nm x = n) l with
  | Some (i, x) => (l, (i, x))
  | None => (l ++ [mk n], (length l, mk n))
  end.

Definition scanned {A : Type} (nm : A → string) (mk : string → A)
    (l : list A) (n : string) : list A :=
  if decide (n ∈ nm <$> l) then l else l ++ [mk n].

(** What [n] calls of a find-or-create operation with the name [name] do
    to the list of siblings [l] they scan: [l'] is the list afterwards,
    [returned] the objects the calls returned (position and value).  The
    list gains one new empty node when the name was absent and nothing
    otherwise, it holds exactly one node of that name, and every call
    returned that node. *)
Definition created_once {A : Type} (nm : A → string) (new : string → A)
    (name : string) (n : nat) (l l' : list A) (returned : list (nat * A)) : Prop :=
  l' = (if decide (name ∈ nm <$> l) then l else l ++ [new name]) ∧
  length (filter (λ x, nm x = name) l') = 1 ∧
  ∃ i x, l' !! i = Some x ∧ nm x = name ∧ returned = replicate n (i, x).

(** ** Flatten, level by level *)

Definition flatten_subject (year : Year) (branch : Branch) (subject : Subject)
  : list FlatRecord :=
  flat_record year branch subject <$> resources subject.

Definition flatten_branch (year : Year) (branch : Branch) : list FlatRecord :=
  subjects branch ≫= flatten_subject year branch.

Definition flatten_year (year : Year) : list FlatRecord :=
  branches year ≫= flatten_branch year.

Definition flatten_years (ys : list Year) : list FlatRecord :=
  ys ≫= flatten_year.

(** ** Adding a resource *)

(** The subject reached from the manifest by the first year named
    [year_name], its first branch named [branch_name] and the first
    subject of that branch named [subject_name]. *)
Definition lookup_subject (manifest : Manifest)
    (year_name branch_name subject_name : string) : option Subject :=
  '(_, year) ← list_find (λ y, y_name y = year_name) (years manifest);
  '(_, branch) ← list_find (λ b, b_name b = branch_name) (branches year);
  '(_, subject) ← list_find (λ s, s_name s = subject_name) (subjects branch);
  Some subject.

(** [l'] is [l] where the first node named [name] was replaced by a node
    of the same name related to it by [P], or, when [l] has no node of
    that name, [l] followed by one node of that name that [P] relates to
    the empty node [new]. Every other node keeps its value and its
    place. *)
Definition grown_at {A : Type} (nm : A → string) (name : string)
    (P : A → A → Prop) (new : A) (l l' : list A) : Prop :=
  (∃ l1 x l2 x',
     l = l1 ++ x :: l2 ∧ l' = l1 ++ x' :: l2 ∧ (name ∉ nm <$> l1) ∧
     nm x = name ∧ nm x' = name ∧ P x x') ∨
  ((name ∉ nm <$> l) ∧
   ∃ x', l' = l ++ [x'] ∧ nm x' = name ∧ P new x').

(** The manifest [m'] is [m] with [resource] appended to the resources of
    the subject named by the triple, the year, the branch and the subject
    being appended as new nodes where they were missing. *)
Definition resource_added (year_name branch_name subject_name : string)
    (resource : Resource) (m m' : Manifest) : Prop :=
  grown_at y_name year_name
    (λ y y',
       grown_at b_name branch_name
         (λ b b',
            grown_at s_name subject_name
              (λ s s', resources s' = resources s ++ [resource])
              (new_subject subject_name) (subjects b) (subjects b'))
         (new_branch branch_name) (branches y) (branches y'))
    (new_year year_name) (years m) (years m').

(** The record [flatten_resources] produces for [r] under the triple. *)
Definition record_of (yn bn sn : string) (r : Resource) : FlatRecord :=
  {| f_year := yn; f_branch := bn; f_subject := sn; f_title := title r;
     f_type := rtype r; f_url := url r; f_path := path r |}.

(** The resource of the scenario:
    [{title: "Signals Notes", type: "link", url: "http://x"}]. *)
Definition signals_notes : Resource :=
  {| title := Some "Signals Notes"; rtype := Some "link";
     url := Some "http://x"; path := None; meta := None |}.

(** ** Search *)

(** [needle] occurs in [hay] as a substring. *)
Definition contains (hay needle : string) : Prop :=
  ∃ pre post, hay = pre +:+ needle +:+ post.

(** The field contains the query when case is ignored, both being
    compared in lower case. *)
Definition field_contains `{PyLib} (q field : string) : Prop :=
  contains (str_lower field) (str_lower q).

(** The query occurs in the title, the subject, the branch or the year of
    the record. *)
Definition spec_matches `{PyLib} (q : string) (r : FlatRecord) : Prop :=
  from_option (field_contains q) False (f_title r) ∨
  field_contains q (f_subject r) ∨
  field_contains q (f_branch r) ∨
  field_contains q (f_year r).

(** ** File names *)

(** The candidates of [unique_filename] in the order the loop tries them:
    the requested name, then [base_1ext], [base_2ext], ... *)
Definition candidate (base ext : string) (k : nat) : string :=
  match k with
  | 0 => base +:+ ext
  | S _ => base +:+ "_" +:+ pretty k +:+ ext
  end.

(** [unique_filename] returns [r] on [fs]. *)
Definition returns_name `{PyLib} (fs : filesystem) (folder name r : string) : Prop :=
  ∃ fuel, unique_filename fuel fs folder name = Some r.




(** ** Storage *)

(** From [fs] to [fs'] no file was removed or created and no file other
    than the manifest document was written: the operations performed are
    [ops], each the creation of the static folder or a write of the
    manifest document, and every other path holds what it held. *)
Definition only_manifest_written (ops : list fs_op) (fs fs' : filesystem) : Prop :=
  oplog fs' = oplog fs ++ ops ∧
  Forall (λ op, op = OpMkdir STATIC_DIR ∨ op = OpWrite MANIFEST_FILE) ops ∧
  (∀ p, p ≠ MANIFEST_FILE → files fs' !! p = files fs !! p) ∧
  dom (files fs) ⊆ dom (files fs').

(** ** Deleting *)

(** The manifest with [rs] as the resources of the subject at the
    positions [yi], [bi], [si]; every other node is kept. *)
Definition set_resources (yi bi si : nat) (rs : list Resource)
    (manifest : Manifest) : Manifest :=
  {| years :=
       alter (λ year,
         {| y_name := y_name year;
            branches :=
              alter (λ branch,
                {| b_name := b_name branch;
                   subjects :=
                     alter (λ subject,
                       {| s_name := s_name subject; resources := rs |})
                       si (subjects branch) |})
                bi (branches year) |})
         yi (years manifest) |}.

(** A manifest for the examples: two years, the first holding a link and
    an uploaded file. *)
Definition notes_file : Resource :=
  {| title := Some "Lecture Notes"; rtype := Some "file"; url := None;
     path := Some "static/notes.pdf"; meta := None |}.

Definition second_year : Year :=
  {| y_name := "2nd Year";
     branches :=
       [ {| b_name := "ECE";
            subjects := [ {| s_name := "Signals";
                             resources := [signals_notes; notes_file] |} ] |} ] |}.

Definition sample_manifest : Manifest :=
  {| years := [ second_year; {| y_name := "3rd Year"; branches := [] |} ] |}.

Definition sample_storage : filesystem :=
  {| files := {[ "static/notes.pdf" := "%PDF-1.4" ]}; oplog := [] |}.

(** ** Manifest store *)


(** ** Invariants and views used by the further properties *)

(** Sibling names are unique at every level of the manifest. *)
Definition unique_names (manifest : Manifest) : Prop :=
  NoDup (y_name <$> years manifest) ∧
  Forall (λ year,
    NoDup (b_name <$> branches year) ∧
    Forall (λ branch, NoDup (s_name <$> subjects branch)) (branches year))
    (years manifest).

(** The number of resources of the manifest. *)
Definition total_resources (manifest : Manifest) : nat :=
  sum_list (years manifest ≫= λ year,
            branches year ≫= λ branch,
            (λ subject, length (resources subject)) <$> subjects branch).

(** A submission of the add form for the examples: a link. *)
Definition link_form : form :=
  {| in_year := "  "; in_branch := " ECE "; in_subject := "Signals";
     in_title := " Week 1 "; in_type := "link"; in_url := "http://x";
     in_file := None; in_submitted := true |}.





(** The state of the page after a change of the manifest was saved: the
    manifest held in memory is the one of the persisted document, and
    from the storage [fs] nothing but the manifest document changed. *)
Definition saved_from `{PyLib} (fs : filesystem) (st : page_state) : Prop :=
  files (disk st) !! MANIFEST_FILE = Some (json_dump (mem st)) ∧
  only_manifest_written [OpWrite MANIFEST_FILE] fs (disk st).

(** The page on the sample manifest, nothing shown yet. *)
Definition sample_page : page_state :=
  {| shown := []; mem := sample_manifest; disk := sample_storage |}.

Definition sample_branch : Branch :=
  {| b_name := "ECE";
     subjects := [ {| s_name := "Signals";
                      resources := [signals_notes; notes_file] |} ] |}.

Definition sample_subject : Subject :=
  {| s_name := "Signals"; resources := [signals_notes; notes_file] |}.


(** A search result that the search view can render: a link, or a record
    with a path at which a file is stored. *)
Definition readable (fs : filesystem) (r : FlatRecord) : Prop :=
  f_type r = Some "link" ∨ ∃ p, f_path r = Some p ∧ is_Some (files fs !! p).

(** Inputs of a run for the examples: nothing edited, nothing pressed,
    the form not submitted. *)
Definition no_controls : browse_input :=
  {| year_in := λ _, idle; branch_in := λ _ _, idle;
     subject_in := λ _ _ _, idle; resource_in := λ _ _ _ _, idle |}.

Definition empty_form : form :=
  {| in_year := ""; in_branch := ""; in_subject := ""; in_title := "";
     in_type := "link"; in_url := ""; in_file := None; in_submitted := false |}.

Definition viewer_input : script_input :=
  {| admin_mode := false; download_clicked := false; q := "";
     add_form := empty_form; now := ""; browse_in := no_controls |}.

(** A storage without any file. *)
Definition empty_storage : filesystem := {| files := ∅; oplog := [] |}.

(** An admin who submits the link form. *)
Definition admin_input : script_input :=
  {| admin_mode := true; download_clicked := true; q := "";
     add_form := link_form; now := "2024-01-01 00:00:00";
     browse_in := no_controls |}.


(** * A reference implementation of the library functions

    An implementation of [PyLib] for text in ASCII, used to run the model
    on examples: lower-casing and stripping of ASCII text,
    [posixpath.splitext], and a JSON printer and reader for manifests in
    the layout of [json.dump(..., indent=2)].  The theorems below hold
    for every implementation; this one shows they apply. *)

Module Ref.

Definition code (c : Ascii.ascii) : N := Ascii.N_of_ascii c.

Definition dquote : Ascii.ascii := Ascii.ascii_of_N 34.
Definition backslash : Ascii.ascii := Ascii.ascii_of_N 92.

Definition lower_char (c : Ascii.ascii) : Ascii.ascii :=
  if ((65 <=? code c) && (code c <=? 90))%N
  then Ascii.ascii_of_N (code c + 32) else c.

Fixpoint lower (s : string) : string :=
  match s with
  | EmptyString => EmptyString
  | String c s => String (lower_char c) (lower s)
  end.

Definition is_space (c : Ascii.ascii) : bool :=
  (((9 <=? code c) && (code c <=? 13)) || ((28 <=? code c) && (code c <=? 32)))%N.

Fixpoint lstrip (s : string) : string :=
  match s with
  | EmptyString => EmptyString
  | String c rest => if is_space c then lstrip rest else s
  end.

Definition strip (s : string) : string :=
  String.rev (lstrip (String.rev (lstrip s))).

(** [p.rfind(c)], counting from [i]. *)
Fixpoint rfind_from (c : Ascii.ascii) (p : string) (i : nat) (found : option nat)
  : option nat :=
  match p with
  | EmptyString => found
  | String d p => rfind_from c p (S i) (if decide (d = c) then Some i else found)
  end.

(** Some character of [p] at a position in [[lo, hi)] is not a dot. *)
Fixpoint has_non_dot (p : string) (i lo hi : nat) : bool :=
  match p with
  | EmptyString => false
  | String d p =>
      (bool_decide (lo ≤ i < hi) && negb (bool_decide (d = "."%char)))
      || has_non_dot p (S i) lo hi
  end.

Definition posix_splitext (p : string) : string * string :=
  let sep_index := rfind_from "/"%char p 0 None in
  let dot_index := rfind_from "."%char p 0 None in
  match dot_index with
  | None => (p, "")
  | Some dot =>
      let filename_index := from_option S 0 sep_index in
      if bool_decide (filename_index ≤ dot) && has_non_dot p 0 filename_index dot
      then (String.substring 0 dot p,
            String.substring dot (String.length p - dot) p)
      else (p, "")
  end.

(** ** JSON text *)

#[local] Unset Elimination Schemes.
Inductive json : Type :=
  | JStr (s : string)
  | JArr (items : list json)
  | JObj (members : list (string * json)).
#[local] Set Elimination Schemes.

Definition hex_digit (n : N) : Ascii.ascii :=
  Ascii.ascii_of_N (if (n <? 10)%N then 48 + n else 87 + n).

(** The escapes of [json.dump] with [ensure_ascii=False]. *)
Definition escape_char (c : Ascii.ascii) : string :=
  if decide (c = dquote) then String backslash (String dquote "")
  else if decide (c = backslash) then String backslash (String backslash "")
  else if decide (code c = 10%N) then "\n"
  else if decide (code c = 13%N) then "\r"
  else if decide (code c = 9%N) then "\t"
  else if decide (code c = 8%N) then "\b"
  else if decide (code c = 12%N) then "\f"
  else if (code c <? 32)%N then
    "\u00" +:+ String (hex_digit (code c / 16)) (String (hex_digit (code c mod 16)) "")
  else String c "".

Fixpoint escape (s : string) : string :=
  match s with
  | EmptyString => EmptyString
  | String c s => escape_char c +:+ escape s
  end.

Definition quote (s : string) : string :=
  String dquote (escape s +:+ String dquote "").

Fixpoint spaces (n : nat) : string :=
  match n with
  | 0 => ""
  | S n => String " "%char (spaces n)
  end.

Definition newline (level : nat) : string :=
  String (Ascii.ascii_of_N 10) (spaces (2 * level)).

(** The items of a container, one per line at [level], separated by
    commas. *)
Fixpoint print_items (level : nat) (items : list string) : string :=
  match items with
  | [] => ""
  | [x] => newline level +:+ x
  | x :: items => newline level +:+ x +:+ "," +:+ print_items level items
  end.

Fixpoint print (level : nat) (v : json) : string :=
  match v with
  | JStr s => quote s
  | JArr [] => "[]"
  | JArr items =>
      "[" +:+ print_items (S level) (map (print (S level)) items)
      +:+ newline level +:+ "]"
  | JObj [] => "{}"
  | JObj members =>
      "{" +:+ print_items (S level)
                (map (λ kv, quote kv.1 +:+ ": " +:+ print (S level) kv.2) members)
      +:+ newline level +:+ "}"
  end.

Definition hex_value (c : Ascii.ascii) : option N :=
  let n := code c in
  if ((48 <=? n) && (n <=? 57))%N then Some (n - 48)%N
  else if ((97 <=? n) && (n <=? 102))%N then Some (n - 87)%N
  else if ((65 <=? n) && (n <=? 70))%N then Some (n - 55)%N
  else None.

Definition is_json_space (c : Ascii.ascii) : bool :=
  bool_decide (code c = 32%N) || bool_decide (code c = 10%N)
  || bool_decide (code c = 13%N) || bool_decide (code c = 9%N).

Fixpoint skip_ws (s : string) : string :=
  match s with
  | EmptyString => EmptyString
  | String c rest => if is_json_space c then skip_ws rest else s
  end.

(** The characters of a string literal after its opening quote, up to the
    closing quote, and the text that follows.  Escapes above code 127 are
    outside this implementation. *)
Fixpoint read_string (s : string) : option (string * string) :=
  match s with
  | EmptyString => None
  | String c rest =>
      if decide (c = dquote) then Some ("", rest)
      else if decide (c = "\"%char) then
        match rest with
        | String e rest =>
            if decide (e = "u"%char) then
              match rest with
              | String h1 (String h2 (String h3 (String h4 rest))) =>
                  d1 ← hex_value h1; d2 ← hex_value h2;
                  d3 ← hex_value h3; d4 ← hex_value h4;
                  let n := (((d1 * 16 + d2) * 16 + d3) * 16 + d4)%N in
                  if (n <? 128)%N then
                    '(str, rest) ← read_string rest;
                    Some (String (Ascii.ascii_of_N n) str, rest)
                  else None
              | _ => None
              end
            else
              ch ← (if decide (e = dquote) then Some e
                    else if decide (e = "\"%char) then Some e
                    else if decide (e = "/"%char) then Some e
                    else if decide (e = "b"%char) then Some (Ascii.ascii_of_N 8)
                    else if decide (e = "f"%char) then Some (Ascii.ascii_of_N 12)
                    else if decide (e = "n"%char) then Some (Ascii.ascii_of_N 10)
                    else if decide (e = "r"%char) then Some (Ascii.ascii_of_N 13)
                    else if decide (e = "t"%char) then Some (Ascii.ascii_of_N 9)
                    else None);
              '(str, rest) ← read_string rest;
              Some (String ch str, rest)
        | EmptyString => None
        end
      else if (code c <? 32)%N then None
      else
        '(str, rest) ← read_string rest;
        Some (String c str, rest)
  end.

(** A value at the head of [s], and the text that follows it. *)
Fixpoint read_value (fuel : nat) (s : string) : option (json * string) :=
  match fuel with
  | 0 => None
  | S fuel =>
      match skip_ws s with
      | String c rest =>
          if decide (c = dquote) then
            '(str, rest) ← read_string rest;
            Some (JStr str, rest)
          else if decide (c = "["%char) then
            match skip_ws rest with
            | String d rest' =>
                if decide (d = "]"%char) then Some (JArr [], rest')
                else
                  '(items, rest) ←
                    (fix read_items (n : nat) (s : string)
                       : option (list json * string) :=
                       match n with
                       | 0 => None
                       | S n =>
                           '(v, s) ← read_value fuel s;
                           match skip_ws s with
                           | String e s =>
                               if decide (e = ","%char) then
                                 '(vs, s) ← read_items n s;
                                 Some (v :: vs, s)
                               else if decide (e = "]"%char) then Some ([v], s)
                               else None
                           | EmptyString => None
                           end
                       end) fuel (String d rest');
                  Some (JArr items, rest)
            | EmptyString => None
            end
          else if decide (c = "{"%char) then
            match skip_ws rest with
            | String d rest' =>
                if decide (d = "}"%char) then Some (JObj [], rest')
                else
                  '(members, rest) ←
                    (fix read_members (n : nat) (s : string)
                       : option (list (string * json) * string) :=
                       match n with
                       | 0 => None
                       | S n =>
                           match skip_ws s with
                           | String q s =>
                               if decide (q = dquote) then
                                 '(key, s) ← read_string s;
                                 match skip_ws s with
                                 | String colon s =>
                                     if decide (colon = ":"%char) then
                                       '(v, s) ← read_value fuel s;
                                       match skip_ws s with
                                       | String e s =>
                                           if decide (e = ","%char) then
                                             '(kvs, s) ← read_members n s;
                                             Some ((key, v) :: kvs, s)
                                           else if decide (e = "}"%char)
                                           then Some ([(key, v)], s)
                                           else None
                                       | EmptyString => None
                                       end
                                     else None
                                 | EmptyString => None
                                 end
                               else None
                           | EmptyString => None
                           end
                       end) fuel (String d rest');
                  Some (JObj members, rest)
            | EmptyString => None
            end
          else None
      | EmptyString => None
      end
  end.

Definition read (doc : string) : option json :=
  '(v, rest) ← read_value (S (String.length doc)) doc;
  if decide (skip_ws rest = "") then Some v else None.

(** ** Manifests as JSON *)

Definition resource_json (r : Resource) : json :=
  JObj (omap id
    [ (λ v, ("title", JStr v)) <$> title r;
      (λ v, ("type", JStr v)) <$> rtype r;
      (λ v, ("url", JStr v)) <$> url r;
      (λ v, ("path", JStr v)) <$> path r;
      (λ m : gmap string string,
         ("meta", JObj ((λ kv, (kv.1, JStr kv.2)) <$> map_to_list m))) <$> meta r ]).

Definition subject_json (s : Subject) : json :=
  JObj [("name", JStr (s_name s));
        ("resources", JArr (resource_json <$> resources s))].

Definition branch_json (b : Branch) : json :=
  JObj [("name", JStr (b_name b));
        ("subjects", JArr (subject_json <$> subjects b))].

Definition year_json (y : Year) : json :=
  JObj [("name", JStr (y_name y));
        ("branches", JArr (branch_json <$> branches y))].

Definition manifest_json (m : Manifest) : json :=
  JObj [("years", JArr (year_json <$> years m))].

Definition dump (m : Manifest) : string := print 0 (manifest_json m).

Definition member (key : string) (members : list (string * json)) : option json :=
  (λ found : nat * (string * json), found.2.2)
    <$> list_find (λ kv, kv.1 = key) members.

Definition as_string (v : json) : option string :=
  match v with JStr s => Some s | _ => None end.

Definition as_array (v : json) : option (list json) :=
  match v with JArr items => Some items | _ => None end.

Definition as_object (v : json) : option (list (string * json)) :=
  match v with JObj members => Some members | _ => None end.

(** An optional string member: absent, or present with a string. *)
Definition optional_string (key : string) (members : list (string * json))
  : option (option string) :=
  match member key members with
  | None => Some None
  | Some v => Some <$> as_string v
  end.

Definition only_keys (keys : list string) (members : list (string * json)) : bool :=
  bool_decide (Forall (λ kv, kv.1 ∈ keys) members)
  && bool_decide (NoDup (members.*1)).

Definition json_meta (v : json) : option (gmap string string) :=
  members ← as_object v;
  guard (NoDup (members.*1));;
  list_to_map <$> mapM (λ kv, (λ s, (kv.1, s)) <$> as_string kv.2) members.

Definition json_resource (v : json) : option Resource :=
  members ← as_object v;
  guard (only_keys ["title"; "type"; "url"; "path"; "meta"] members = true);;
  t ← optional_string "title" members;
  ty ← optional_string "type" members;
  u ← optional_string "url" members;
  p ← optional_string "path" members;
  me ← match member "meta" members with
       | None => Some None
       | Some v => Some <$> json_meta v
       end;
  Some {| title := t; rtype := ty; url := u; path := p; meta := me |}.

Definition json_node {A B : Type} (children_key : string)
    (child : json → option A) (mk : string → list A → B) (v : json) : option B :=
  members ← as_object v;
  guard (only_keys ["name"; children_key] members = true);;
  name ← member "name" members ≫= as_string;
  items ← member children_key members ≫= as_array;
  children ← mapM child items;
  Some (mk name children).

Definition json_subject : json → option Subject :=
  json_node "resources" json_resource mkSubject.
Definition json_branch : json → option Branch :=
  json_node "subjects" json_subject mkBranch.
Definition json_year : json → option Year :=
  json_node "branches" json_branch mkYear.

Definition json_manifest (v : json) : option Manifest :=
  members ← as_object v;
  guard (only_keys ["years"] members = true);;
  items ← member "years" members ≫= as_array;
  mkManifest <$> mapM json_year items.

Definition load (doc : string) : option Manifest :=
  read doc ≫= json_manifest.

End Ref.

Definition ref_lib : PyLib := {|
  json_dump := Ref.dump;
  json_load := Ref.load;
  str_lower := Ref.lower;
  str_strip := Ref.strip;
  splitext := Ref.posix_splitext
|}.
(** * Proofs *)

(** ** Find or create *)

Section scan_facts.
Context {A : Type} (nm : A → string) (mk : string → A).
Hypothesis nm_mk : ∀ n, nm (mk n) = n.

Local Abbreviation scan := (scan nm mk).
Local Abbreviation scanned := (scanned nm mk).
Local Abbreviation named n l := (filter (λ x, nm x = n) l).

Lemma scan_absent l n :
  n ∉ nm <$> l → scan l n = (l ++ [mk n], (length l, mk n)).
Proof.
  intros Hn. unfold scan.
  destruct (list_find _ l) as [[i x]|] eqn:E; [|done].
  apply list_find_Some in E as (Hi & Hx & _).
  exfalso. apply Hn. apply list_elem_of_fmap. exists x. split; [done|].
  by eapply list_elem_of_lookup_2.
Qed.

Lemma scan_present l n :
  n ∈ nm <$> l →
  ∃ i x, scan l n = (l, (i, x)) ∧ l !! i = Some x ∧ nm x = n ∧
         ∀ j y, l !! j = Some y → j < i → nm y ≠ n.
Proof.
  intros Hn. unfold scan.
  destruct (list_find _ l) as [[i x]|] eqn:E.
  - apply list_find_Some in E as (Hi & Hx & Hlt). eauto 6.
  - exfalso. apply list_elem_of_fmap in Hn as (x & -> & Hx).
    eapply list_find_None in E. rewrite Forall_forall in E. by apply (E x).
Qed.

Lemma named_absent l n : n ∉ nm <$> l → named n l = [].
Proof.
  intros Hn. induction l as [|a l IH]; [done|].
  rewrite fmap_cons, not_elem_of_cons in Hn. destruct Hn as [Ha Hl].
  rewrite filter_cons_False by congruence. auto.
Qed.

Lemma named_unique l n :
  NoDup (nm <$> l) → n ∈ nm <$> l → length (named n l) = 1.
Proof.
  induction l as [|a l IH]; intros Hnd Hn.
  - by apply elem_of_nil in Hn.
  - rewrite fmap_cons in Hnd, Hn. apply NoDup_cons in Hnd as [Ha Hnd].
    destruct (decide (nm a = n)) as [Heq|Hne].
    + rewrite filter_cons_True by done. subst n.
      by rewrite (named_absent l (nm a)).
    + rewrite filter_cons_False by done.
      apply elem_of_cons in Hn as [Hn|Hn]; [congruence|]. auto.
Qed.

Lemma scanned_elem l n : n ∈ nm <$> scanned l n.
Proof.
  unfold scanned. case_decide; [done|].
  rewrite fmap_app. apply elem_of_app. right. simpl. rewrite nm_mk.
  apply list_elem_of_singleton. done.
Qed.

Lemma scanned_NoDup l n : NoDup (nm <$> l) → NoDup (nm <$> scanned l n).
Proof.
  intros Hnd. unfold scanned. case_decide as Hn; [done|].
  rewrite fmap_app. apply NoDup_app. split; [done|]. split.
  - intros x Hx Hx'. simpl in Hx'. rewrite nm_mk in Hx'.
    apply list_elem_of_singleton in Hx'. by subst.
  - simpl. apply NoDup_singleton.
Qed.

Lemma scanned_fst l n : (scan l n).1 = scanned l n.
Proof.
  unfold scanned. case_decide as Hn.
  - destruct (scan_present l n Hn) as (i & x & -> & _). done.
  - by rewrite scan_absent.
Qed.

Lemma scanned_idem l n : scanned (scanned l n) n = scanned l n.
Proof.
  unfold scanned at 1. rewrite decide_True; [done|]. apply scanned_elem.
Qed.

Lemma scan_snd_stable l n : (scan (scanned l n) n).2 = (scan l n).2.
Proof.
  unfold scanned. case_decide as Hn.
  - done.
  - rewrite (scan_absent l n Hn). simpl.
    unfold scan. rewrite list_find_app_r.
    + simpl. rewrite decide_True by apply nm_mk. done.
    + apply list_find_None. rewrite Forall_forall. intros x Hx Hnx.
      apply Hn. apply list_elem_of_fmap. eauto.
Qed.

Lemma call_seq_scan l n k :
  call_seq (λ l, scan l n) (S k) l
  = (scanned l n, replicate (S k) (scan l n).2).
Proof.
  revert l. induction k as [|k IH]; intros l.
  - simpl. rewrite <- scanned_fst. by destruct (scan l n).
  - change (call_seq (λ l, scan l n) (S (S k)) l)
      with (let '(t1, r) := scan l n in
            let '(t2, rs) := call_seq (λ l, scan l n) (S k) t1 in
            (t2, r :: rs)).
    destruct (scan l n) as [l1 r] eqn:E.
    assert (l1 = scanned l n) as -> by (by rewrite <- scanned_fst, E).
    rewrite IH, scanned_idem, scan_snd_stable, E. done.
Qed.

Lemma scan_returns l n :
  ∃ i x, (scan l n).2 = (i, x) ∧ scanned l n !! i = Some x ∧ nm x = n.
Proof.
  unfold scanned. case_decide as Hn.
  - destruct (scan_present l n Hn) as (i & x & -> & ? & ? & _). eauto.
  - rewrite scan_absent by done. simpl. eexists _, _. split; [done|].
    split; [|apply nm_mk].
    rewrite lookup_app_r by done. by rewrite Nat.sub_diag.
Qed.
End scan_facts.

Lemma call_seq_map {T U R : Type} (f : T → T * R) (g : U → U * R) (φ : U → T) :
  (∀ u, f (φ u) = let '(u', r) := g u in (φ u', r)) →
  ∀ n u, call_seq f n (φ u) = let '(u', rs) := call_seq g n u in (φ u', rs).
Proof.
  intros Hfg n. induction n as [|n IH]; intros u; [done|].
  simpl. rewrite Hfg. destruct (g u) as [u1 r].
  rewrite IH. by destruct (call_seq g n u1).
Qed.

Lemma find_or_create_year_scan l n :
  find_or_create_year (mkManifest l) n
  = let '(l', r) := scan y_name new_year l n in (mkManifest l', r).
Proof.
  unfold find_or_create_year, scan. simpl.
  by destruct (list_find _ l) as [[i y]|].
Qed.

Lemma find_or_create_branch_scan yn l n :
  find_or_create_branch (mkYear yn l) n
  = let '(l', r) := scan b_name new_branch l n in (mkYear yn l', r).
Proof.
  unfold find_or_create_branch, scan. simpl.
  by destruct (list_find _ l) as [[i y]|].
Qed.

Lemma find_or_create_subject_scan bn l n :
  find_or_create_subject (mkBranch bn l) n
  = let '(l', r) := scan s_name new_subject l n in (mkBranch bn l', r).
Proof.
  unfold find_or_create_subject, scan. simpl.
  by destruct (list_find _ l) as [[i y]|].
Qed.

Lemma scan_created_once {A : Type} (nm : A → string) (new : string → A)
    (name : string) (k : nat) (l : list A) :
  (∀ n, nm (new n) = n) →
  NoDup (nm <$> l) →
  created_once nm new name (S k) l
    (call_seq (λ l, scan nm new l name) (S k) l).1
    (call_seq (λ l, scan nm new l name) (S k) l).2.
Proof.
  intros Hnew Hnd. rewrite call_seq_scan by done. cbn [fst snd].
  split; [done|]. split.
  - apply (named_unique nm); [by apply scanned_NoDup|by apply scanned_elem].
  - destruct (scan_returns nm new Hnew l name) as (i & x & -> & ? & ?). eauto.
Qed.

(** One level of the tree: the calls on a node are the calls of [scan] on
    its list of children, the node being rebuilt around the list by
    [wrap]. *)
Local Ltac level_by_scan scan_eq nm new wrap l name k Hnd :=
  rewrite (call_seq_map _ (λ l, scan nm new l name) wrap)
    by (intros; apply scan_eq);
  let Hc := fresh "Hc" in
  pose proof (scan_created_once nm new name k l (λ _, eq_refl) Hnd) as Hc;
  destruct (call_seq (λ l, scan nm new l name) (S k) l);
  first [exact Hc | split; [reflexivity|exact Hc]].

(** C1. Idempotent creation.  Whatever positive number of
    [find_or_create_year] calls (respectively [find_or_create_branch],
    [find_or_create_subject]) is made with one name on one manifest
    (year, branch) whose sibling names are unique, the level holds
    exactly one node of that name afterwards: a new empty node was
    appended by the first call if the name was absent, nothing was
    appended otherwise, and every call returned that same node. *)
Theorem find_or_create_idempotent :
  (∀ (manifest : Manifest) (year_name : string) (n : nat),
     NoDup (y_name <$> years manifest) → 0 < n →
     let '(manifest', returned) :=
       call_seq (λ m, find_or_create_year m year_name) n manifest in
     created_once y_name new_year year_name n
       (years manifest) (years manifest') returned) ∧
  (∀ (year_obj : Year) (branch_name : string) (n : nat),
     NoDup (b_name <$> branches year_obj) → 0 < n →
     let '(year_obj', returned) :=
       call_seq (λ y, find_or_create_branch y branch_name) n year_obj in
     y_name year_obj' = y_name year_obj ∧
     created_once b_name new_branch branch_name n
       (branches year_obj) (branches year_obj') returned) ∧
  (∀ (branch_obj : Branch) (subject_name : string) (n : nat),
     NoDup (s_name <$> subjects branch_obj) → 0 < n →
     let '(branch_obj', returned) :=
       call_seq (λ b, find_or_create_subject b subject_name) n branch_obj in
     b_name branch_obj' = b_name branch_obj ∧
     created_once s_name new_subject subject_name n
       (subjects branch_obj) (subjects branch_obj') returned).
Proof.
  split; [|split].
  - intros [l] name [|k] Hnd Hn; [lia|]. simpl in Hnd.
    level_by_scan find_or_create_year_scan y_name new_year mkManifest l name k Hnd.
  - intros [yn l] name [|k] Hnd Hn; [lia|]. simpl in Hnd.
    level_by_scan find_or_create_branch_scan b_name new_branch (mkYear yn)
      l name k Hnd.
  - intros [bn l] name [|k] Hnd Hn; [lia|]. simpl in Hnd.
    level_by_scan find_or_create_subject_scan s_name new_subject (mkBranch bn)
      l name k Hnd.
Qed.

Lemma find_or_create_idempotent_witness :
  let manifest := {| years := [new_year "1st Year"] |} in
  let year_obj := new_year "1st Year" in
  let branch_obj := {| b_name := "ECE"; subjects := [new_subject "Signals"] |} in
  (NoDup (y_name <$> years manifest) ∧ 0 < 3 ∧
   let '(manifest', returned) :=
     call_seq (λ m, find_or_create_year m "2nd Year") 3 manifest in
   created_once y_name new_year "2nd Year" 3
     (years manifest) (years manifest') returned) ∧
  (NoDup (b_name <$> branches year_obj) ∧ 0 < 2 ∧
   let '(year_obj', returned) :=
     call_seq (λ y, find_or_create_branch y "ECE") 2 year_obj in
   y_name year_obj' = y_name year_obj ∧
   created_once b_name new_branch "ECE" 2
     (branches year_obj) (branches year_obj') returned) ∧
  (NoDup (s_name <$> subjects branch_obj) ∧ 0 < 2 ∧
   let '(branch_obj', returned) :=
     call_seq (λ b, find_or_create_subject b "Signals") 2 branch_obj in
   b_name branch_obj' = b_name branch_obj ∧
   created_once s_name new_subject "Signals" 2
     (subjects branch_obj) (subjects branch_obj') returned).
Proof.
  intros manifest year_obj branch_obj.
  assert (NoDup (y_name <$> years manifest)) as H1
    by (apply (bool_decide_unpack _); vm_compute; exact I).
  assert (NoDup (b_name <$> branches year_obj)) as H2
    by (apply (bool_decide_unpack _); vm_compute; exact I).
  assert (NoDup (s_name <$> subjects branch_obj)) as H3
    by (apply (bool_decide_unpack _); vm_compute; exact I).
  destruct find_or_create_idempotent as (Hy & Hb & Hs).
  split; [|split].
  - split; [exact H1|]. split; [lia|].
    apply (Hy manifest "2nd Year" 3 H1). lia.
  - split; [exact H2|]. split; [lia|].
    apply (Hb year_obj "ECE" 2 H2). lia.
  - split; [exact H3|]. split; [lia|].
    apply (Hs branch_obj "Signals" 2 H3). lia.
Defined.

(** ** Flatten *)

Lemma foldl_append_bind {A B : Type} (f : A → list B) (l : list A) (acc : list B) :
  foldl (λ flat x, flat ++ f x) acc l = acc ++ (l ≫= f).
Proof.
  revert acc. induction l as [|x l IH]; intros acc; simpl.
  - by rewrite app_nil_r.
  - rewrite IH. by rewrite <- app_assoc.
Qed.

Lemma foldl_ext_acc {A B : Type} (f g : B → A → B) (l : list A) (acc : B) :
  (∀ b a, f b a = g b a) → foldl f acc l = foldl g acc l.
Proof.
  intros Hfg. revert acc. induction l as [|x l IH]; intros acc; simpl; [done|].
  by rewrite Hfg, IH.
Qed.

Lemma flatten_resources_years (manifest : Manifest) :
  flatten_resources manifest = flatten_years (years manifest).
Proof.
  unfold flatten_resources, flatten_years.
  rewrite <- (app_nil_l (years manifest ≫= flatten_year)).
  rewrite <- foldl_append_bind. apply foldl_ext_acc. intros flat year.
  unfold flatten_year. rewrite <- foldl_append_bind.
  apply foldl_ext_acc. clear flat. intros flat branch.
  unfold flatten_branch. rewrite <- foldl_append_bind.
  apply foldl_ext_acc. clear flat. intros flat subject.
  unfold flatten_subject.
  etrans; [apply (foldl_append_bind (λ res, [flat_record year branch subject res]))|].
  f_equal.
Qed.

Lemma flatten_years_app (l1 l2 : list Year) :
  flatten_years (l1 ++ l2) = flatten_years l1 ++ flatten_years l2.
Proof. unfold flatten_years. apply bind_app. Qed.

Lemma flatten_years_cons (y : Year) (l : list Year) :
  flatten_years (y :: l) = flatten_year y ++ flatten_years l.
Proof. done. Qed.

(** ** Adding a resource *)

Section grown.
Context {A : Type} (nm : A → string) (mk : string → A).
Hypothesis nm_mk : ∀ n, nm (mk n) = n.

(** The list a scan leaves, split around the node it returns. *)
Lemma scan_split l n :
  ∃ pre x post,
    scan nm mk l n = (pre ++ x :: post, (length pre, x)) ∧
    nm x = n ∧ (n ∉ nm <$> pre) ∧
    (l = pre ++ x :: post ∨ (l = pre ∧ post = [] ∧ x = mk n)).
Proof.
  unfold scan. destruct (list_find _ l) as [[i x]|] eqn:E.
  - apply list_find_Some in E as (Hi & Hx & Hlt).
    exists (take i l), x, (drop (S i) l).
    pose proof (lookup_lt_Some _ _ _ Hi) as Hlen.
    rewrite length_take_le by lia. rewrite take_drop_middle by done.
    split; [done|]. split; [done|]. split; [|by left].
    intros (y & Hy & Hin)%list_elem_of_fmap.
    apply list_elem_of_lookup in Hin as (j & Hj).
    pose proof (lookup_lt_Some _ _ _ Hj) as Hjlen.
    rewrite length_take in Hjlen.
    rewrite lookup_take_lt in Hj by lia.
    apply (Hlt j y); [done|lia|done].
  - exists l, (mk n), []. split; [done|]. split; [apply nm_mk|].
    split; [|by right].
    apply list_find_None in E. rewrite Forall_forall in E.
    intros (y & Hy & Hin)%list_elem_of_fmap. by apply (E y).
Qed.

Lemma insert_middle (pre post : list A) (x x' : A) :
  <[length pre := x']> (pre ++ x :: post) = pre ++ x' :: post.
Proof. by rewrite insert_app_r_alt, Nat.sub_diag by lia. Qed.

Lemma lookup_middle (pre post : list A) (x : A) :
  (pre ++ x :: post) !! length pre = Some x.
Proof. by rewrite lookup_app_r, Nat.sub_diag by lia. Qed.

Lemma list_find_middle (pre post : list A) (x : A) (n : string) :
  (n ∉ nm <$> pre) → nm x = n →
  list_find (λ x, nm x = n) (pre ++ x :: post) = Some (length pre, x).
Proof.
  intros Hpre Hx. apply list_find_Some. split; [apply lookup_middle|].
  split; [done|]. intros j y Hj Hlt Hy.
  rewrite lookup_app_l in Hj by done.
  apply Hpre. apply list_elem_of_fmap. exists y. split; [done|].
  by eapply list_elem_of_lookup_2.
Qed.
End grown.

(** The manifest [add_resource] leaves, written around the year, the
    branch and the subject that the three find-or-create calls return. *)
Lemma add_resource_fst `{PyLib} (l : list Year) (yn bn sn : string)
    (r : Resource) (fs : filesystem) :
  ∃ ypre lb ypost bpre ls bpost spre lr spost,
    (scan y_name new_year l yn
       = (ypre ++ mkYear yn lb :: ypost, (length ypre, mkYear yn lb)) ∧
     scan b_name new_branch lb bn
       = (bpre ++ mkBranch bn ls :: bpost, (length bpre, mkBranch bn ls)) ∧
     scan s_name new_subject ls sn
       = (spre ++ mkSubject sn lr :: spost, (length spre, mkSubject sn lr))) ∧
    ((yn ∉ y_name <$> ypre) ∧
     (l = ypre ++ mkYear yn lb :: ypost ∨ (l = ypre ∧ ypost = [] ∧ lb = []))) ∧
    ((bn ∉ b_name <$> bpre) ∧
     (lb = bpre ++ mkBranch bn ls :: bpost ∨ (lb = bpre ∧ bpost = [] ∧ ls = []))) ∧
    ((sn ∉ s_name <$> spre) ∧
     (ls = spre ++ mkSubject sn lr :: spost ∨ (ls = spre ∧ spost = [] ∧ lr = []))) ∧
    (add_resource (mkManifest l) yn bn sn r fs).1
      = mkManifest
          (ypre ++ mkYear yn (bpre ++ mkBranch bn (spre ++ mkSubject sn (lr ++ [r])
                                                     :: spost) :: bpost) :: ypost).
Proof.
  destruct (scan_split y_name new_year (λ _, eq_refl) l yn)
    as (ypre & [yn' lb] & ypost & Ey & Hyn & Hypre & Hy).
  destruct (scan_split b_name new_branch (λ _, eq_refl) lb bn)
    as (bpre & [bn' ls] & bpost & Eb & Hbn & Hbpre & Hb).
  destruct (scan_split s_name new_subject (λ _, eq_refl) ls sn)
    as (spre & [sn' lr] & spost & Es & Hsn & Hspre & Hs).
  simpl in Hyn, Hbn, Hsn. subst yn' bn' sn'.
  exists ypre, lb, ypost, bpre, ls, bpost, spre, lr, spost.
  split; [done|]. split; [|split; [|split]].
  - split; [done|]. destruct Hy as [?|(? & ? & [= ?])]; auto.
  - split; [done|]. destruct Hb as [?|(? & ? & [= ?])]; auto.
  - split; [done|]. destruct Hs as [?|(? & ? & [= ?])]; auto.
  - unfold add_resource.
    rewrite find_or_create_year_scan, Ey.
    rewrite find_or_create_branch_scan, Eb.
    rewrite find_or_create_subject_scan, Es.
    cbn [fst s_name resources b_name subjects y_name branches years].
    by rewrite !insert_middle.
Qed.

Lemma add_resource_snd `{PyLib} (m : Manifest) (yn bn sn : string)
    (r : Resource) (fs : filesystem) :
  (add_resource m yn bn sn r fs).2
  = save_manifest (add_resource m yn bn sn r fs).1 fs.
Proof.
  unfold add_resource.
  destruct (find_or_create_year m yn) as [m1 [yi y]].
  destruct (find_or_create_branch y bn) as [y1 [bi b]].
  destruct (find_or_create_subject b sn) as [b1 [si s]]. done.
Qed.

Lemma grown_at_intro {A : Type} (nm : A → string) (name : string)
    (P : A → A → Prop) (new : A) (pre post : list A) (x x' : A) (l : list A) :
  (name ∉ nm <$> pre) → nm x = name → nm x' = name → P x x' →
  (l = pre ++ x :: post ∨ (l = pre ∧ post = [] ∧ x = new)) →
  grown_at nm name P new l (pre ++ x' :: post).
Proof.
  intros Hpre Hx Hx' HP [->|(-> & -> & ->)].
  - left. exists pre, x, post, x'. done.
  - right. split; [done|]. exists x'. done.
Qed.

Lemma add_resource_added `{PyLib} (m : Manifest) (yn bn sn : string)
    (r : Resource) (fs : filesystem) :
  resource_added yn bn sn r m (add_resource m yn bn sn r fs).1.
Proof.
  destruct m as [l].
  destruct (add_resource_fst l yn bn sn r fs)
    as (ypre & lb & ypost & bpre & ls & bpost & spre & lr & spost
        & _ & [Hypre Hy] & [Hbpre Hb] & [Hspre Hs] & ->).
  unfold resource_added. cbn [years].
  eapply (grown_at_intro _ _ _ _ ypre ypost (mkYear yn lb)); [done..| |].
  - cbn [branches].
    eapply (grown_at_intro _ _ _ _ bpre bpost (mkBranch bn ls)); [done..| |].
    + cbn [subjects].
      eapply (grown_at_intro _ _ _ _ spre spost (mkSubject sn lr)); [done..|].
      destruct Hs as [?|(? & ? & ->)]; auto.
    + destruct Hb as [?|(? & ? & ->)]; auto.
  - destruct Hy as [?|(? & ? & ->)]; auto.
Qed.

Lemma bind_grown {A B : Type} (f : A → list B) (pre post l : list A)
    (x x' : A) (rec : B) :
  (∃ P Q, f x = P ++ Q ∧ f x' = P ++ rec :: Q) →
  (l = pre ++ x :: post ∨ (l = pre ∧ post = [] ∧ f x = [])) →
  ∃ P Q, l ≫= f = P ++ Q ∧ (pre ++ x' :: post) ≫= f = P ++ rec :: Q.
Proof.
  intros (P & Q & Hx & Hx') Hl.
  exists ((pre ≫= f) ++ P), (Q ++ (post ≫= f)).
  rewrite bind_app, bind_cons, Hx'. split; [|by rewrite <- !app_assoc].
  destruct Hl as [->|(-> & -> & Hnil)].
  - rewrite bind_app, bind_cons, Hx. by rewrite <- !app_assoc.
  - rewrite Hnil in Hx. symmetry in Hx. apply app_eq_nil in Hx as [-> ->].
    simpl. by rewrite !app_nil_r.
Qed.

Lemma add_resource_flatten `{PyLib} (m : Manifest) (yn bn sn : string)
    (r : Resource) (fs : filesystem) :
  ∃ before after,
    flatten_resources m = before ++ after ∧
    flatten_resources (add_resource m yn bn sn r fs).1
      = before ++ record_of yn bn sn r :: after.
Proof.
  destruct m as [l].
  destruct (add_resource_fst l yn bn sn r fs)
    as (ypre & lb & ypost & bpre & ls & bpost & spre & lr & spost
        & _ & [_ Hy] & [_ Hb] & [_ Hs] & ->).
  rewrite !flatten_resources_years. cbn [years]. unfold flatten_years.
  apply (bind_grown flatten_year ypre ypost l (mkYear yn lb)).
  - unfold flatten_year. cbn [branches].
    apply (bind_grown (λ b, subjects b ≫= λ s,
             (λ res, record_of yn (b_name b) (s_name s) res) <$> resources s)
             bpre bpost lb (mkBranch bn ls)).
    + cbn [subjects b_name].
      apply (bind_grown (λ s, (λ res, record_of yn bn (s_name s) res) <$> resources s)
               spre spost ls (mkSubject sn lr)).
      * cbn [resources s_name].
        exists ((λ res, record_of yn bn sn res) <$> lr), [].
        split; [by rewrite app_nil_r|]. by rewrite fmap_app.
      * destruct Hs as [?|(? & ? & ->)]; auto.
    + destruct Hb as [?|(? & ? & ->)]; auto.
  - destruct Hy as [?|(? & ? & ->)]; auto.
Qed.

(** C9. Frame of [add_resource].  Whatever the manifest and the
    arguments, the years, branches, subjects and resources already in
    the manifest keep their values and their order; the manifest gains at
    most one year, one branch and one subject, each appended empty at the
    end of its level, and exactly one resource, at the end of the target
    subject's resources.  In the flattened view one record is inserted
    and nothing else moves, so the number of resources grows by one. *)
Theorem add_resource_frame `{PyLib} (manifest : Manifest)
    (year_name branch_name subject_name : string) (resource : Resource)
    (fs : filesystem) :
  let manifest' :=
    (add_resource manifest year_name branch_name subject_name resource fs).1 in
  resource_added year_name branch_name subject_name resource manifest manifest' ∧
  (∃ before after,
     flatten_resources manifest = before ++ after ∧
     flatten_resources manifest'
       = before ++ record_of year_name branch_name subject_name resource :: after) ∧
  length (flatten_resources manifest') = S (length (flatten_resources manifest)).
Proof.
  intros manifest'. subst manifest'.
  split; [apply add_resource_added|].
  destruct (add_resource_flatten manifest year_name branch_name subject_name
              resource fs) as (before & after & Hm & Hm').
  split; [by exists before, after|].
  rewrite Hm, Hm', !length_app. simpl. lia.
Qed.

(** C3. [add_resource] on the empty manifest with the resource
    [{title: "Signals Notes", type: "link", url: "http://x"}] under
    ("2nd Year", "ECE", "Signals") leaves one year "2nd Year" holding one
    branch "ECE" holding one subject "Signals" holding that one
    resource.  In general the subject that the three find-or-create
    calls, composed, return is afterwards the subject reached under the
    three names, with the resource appended to its resources, and the
    resulting manifest is the one saved. *)
Theorem add_resource_scenario `{PyLib} :
  (∀ fs : filesystem,
     (add_resource empty_manifest "2nd Year" "ECE" "Signals" signals_notes fs).1
     = {| years :=
            [ {| y_name := "2nd Year";
                 branches :=
                   [ {| b_name := "ECE";
                        subjects :=
                          [ {| s_name := "Signals";
                               resources := [signals_notes] |} ] |} ] |} ] |}) ∧
  (∀ (manifest : Manifest) (year_name branch_name subject_name : string)
     (resource : Resource) (fs : filesystem),
     let '(manifest', fs') :=
       add_resource manifest year_name branch_name subject_name resource fs in
     let '(_, (_, year_obj)) := find_or_create_year manifest year_name in
     let '(_, (_, branch_obj)) := find_or_create_branch year_obj branch_name in
     let '(_, (_, subject_obj)) := find_or_create_subject branch_obj subject_name in
     lookup_subject manifest' year_name branch_name subject_name
       = Some {| s_name := subject_name;
                 resources := resources subject_obj ++ [resource] |} ∧
     fs' = save_manifest manifest' fs).
Proof.
  split; [done|].
  intros [l] yn bn sn r fs.
  pose proof (add_resource_snd (mkManifest l) yn bn sn r fs) as Hsnd.
  destruct (add_resource_fst l yn bn sn r fs)
    as (ypre & lb & ypost & bpre & ls & bpost & spre & lr & spost
        & (Ey & Eb & Es) & [Hypre _] & [Hbpre _] & [Hspre _] & Hfst).
  destruct (add_resource (mkManifest l) yn bn sn r fs) as [m' fs'].
  simpl in Hsnd, Hfst. subst m'.
  rewrite find_or_create_year_scan, Ey.
  rewrite find_or_create_branch_scan, Eb.
  rewrite find_or_create_subject_scan, Es.
  split; [|done].
  unfold lookup_subject. cbn [years].
  rewrite (list_find_middle y_name) by done. cbn [mbind option_bind branches].
  rewrite (list_find_middle b_name) by done. cbn [mbind option_bind subjects].
  rewrite (list_find_middle s_name) by done. done.
Qed.

(** ** Search *)

Lemma append_cons (c : Ascii.ascii) (a b : string) :
  String c a +:+ b = String c (a +:+ b).
Proof. done. Qed.

Lemma append_nil_l (b : string) : "" +:+ b = b.
Proof. done. Qed.

Lemma prefix_spec (a b : string) :
  String.prefix a b = true ↔ ∃ post, b = a +:+ post.
Proof.
  revert b. induction a as [|c a IH]; intros b.
  - simpl. destruct b; split; eauto.
  - destruct b as [|d b]; simpl.
    + split; [done|]. by intros [post ?].
    + destruct (Ascii.ascii_dec c d) as [->|Hne].
      * rewrite IH. split; intros [post Hp]; exists post.
        -- by rewrite append_cons, Hp.
        -- rewrite append_cons in Hp. congruence.
      * split; [done|]. intros [post Hp]. rewrite append_cons in Hp. congruence.
Qed.

Lemma str_in_spec (needle hay : string) :
  str_in needle hay = true ↔ contains hay needle.
Proof.
  unfold contains. induction hay as [|c hay IH].
  - cbn [str_in]. rewrite orb_false_r, prefix_spec. split.
    + intros [post Hp]. by exists "", post.
    + intros ([|? pre] & post & Hp); [|done]. by exists post.
  - cbn [str_in]. rewrite orb_true_iff, IH, prefix_spec. split.
    + intros [[post Hp]|(pre & post & Hp)].
      * by exists "", post.
      * exists (String c pre), post. by rewrite append_cons, Hp.
    + intros ([|d pre] & post & Hp).
      * left. by exists post.
      * right. exists pre, post. rewrite append_cons in Hp. congruence.
Qed.

#[global] Instance contains_dec (hay needle : string) : Decision (contains hay needle).
Proof.
  refine (cast_if (decide (str_in needle hay = true))); by rewrite <- str_in_spec.
Defined.

#[global] Instance field_contains_dec `{PyLib} (q field : string) :
  Decision (field_contains q field).
Proof. unfold field_contains. apply _. Defined.

#[global] Instance spec_matches_dec `{PyLib} (q : string) (r : FlatRecord) :
  Decision (spec_matches q r).
Proof. unfold spec_matches. destruct (f_title r); simpl; apply _. Defined.

Lemma str_in_field `{PyLib} (q field : string) :
  str_in (str_lower q) (str_lower field) = true ↔ field_contains q field.
Proof. apply str_in_spec. Qed.

Lemma search_condition_spec `{PyLib} (q : string) (r : FlatRecord) (t : string) :
  f_title r = Some t →
  ∃ keep, search_condition (str_lower q) r = Ok keep ∧
          (keep = true ↔ spec_matches q r).
Proof.
  intros Ht. unfold search_condition, spec_matches. rewrite Ht. simpl.
  eexists. split; [done|].
  rewrite !orb_true_iff, !str_in_field. tauto.
Qed.

Lemma search_comprehension_filter `{PyLib} (q : string) (flat : list FlatRecord) :
  Forall (λ r, is_Some (f_title r)) flat →
  search_comprehension (str_lower q) flat = Ok (filter (spec_matches q) flat).
Proof.
  induction 1 as [|r flat [t Ht] _ IH]; [done|].
  cbn [search_comprehension].
  destruct (search_condition_spec q r t Ht) as (keep & -> & Hkeep).
  rewrite IH. destruct keep.
  - rewrite filter_cons_True; [done|]. by apply Hkeep.
  - rewrite filter_cons_False; [done|]. intros Hm. by apply Hkeep in Hm.
Qed.

(** A record without a title makes the comprehension raise. *)
Lemma search_comprehension_missing_title `{PyLib} (ql : string)
    (flat : list FlatRecord) :
  Exists (λ r, f_title r = None) flat →
  search_comprehension ql flat = Raise AttributeError.
Proof.
  induction 1 as [r flat Hr|r flat _ IH]; cbn [search_comprehension].
  - unfold search_condition. by rewrite Hr.
  - unfold search_condition. destruct (f_title r); [|done]. by rewrite IH.
Qed.

(** C2. For every manifest whose resources have a title and every
    non-empty query, the display section shows exactly the records of
    [flatten_resources] whose title, subject, branch or year contains the
    query, both taken in lower case, in the order in which
    [flatten_resources] lists them: the search is the flattening followed
    by that filter, whatever the shape of the tree. *)
Theorem search_is_filtered_flatten `{PyLib} (manifest : Manifest) (q : string) :
  q ≠ "" →
  Forall (λ r, is_Some (f_title r)) (flatten_resources manifest) →
  display q manifest
  = Ok (SearchResults (filter (spec_matches q) (flatten_resources manifest))).
Proof.
  intros Hq Htitles. unfold display.
  assert (truthy q = true) as ->.
  { unfold truthy. apply negb_true_iff. by apply String.eqb_neq. }
  by rewrite search_comprehension_filter.
Qed.

Lemma search_is_filtered_flatten_witness :
  let manifest :=
    {| years :=
         [ {| y_name := "2nd Year";
              branches :=
                [ {| b_name := "ECE";
                     subjects := [ {| s_name := "Signals";
                                      resources := [signals_notes] |} ] |};
                  {| b_name := "CSE";
                     subjects := [ {| s_name := "Algorithms";
                                      resources := [] |} ] |} ] |} ] |} in
  "ECE" ≠ "" ∧
  Forall (λ r, is_Some (f_title r)) (flatten_resources manifest) ∧
  @display ref_lib "ECE" manifest
  = Ok (SearchResults
          (filter (@spec_matches ref_lib "ECE") (flatten_resources manifest))).
Proof.
  intros manifest.
  assert ("ECE" ≠ "") as Hq by done.
  assert (Forall (λ r, is_Some (f_title r)) (flatten_resources manifest)) as Ht.
  { repeat constructor. by eexists. }
  split; [exact Hq|]. split; [exact Ht|].
  exact (@search_is_filtered_flatten ref_lib manifest "ECE" Hq Ht).
Defined.

(** The scenario of the search: one resource under the branch "ECE",
    none under "CSE"; the query "ECE" returns that resource's record. *)
Example search_ece :
  @display ref_lib "ECE"
    {| years :=
         [ {| y_name := "2nd Year";
              branches :=
                [ {| b_name := "ECE";
                     subjects := [ {| s_name := "Signals";
                                      resources := [signals_notes] |} ] |};
                  {| b_name := "CSE";
                     subjects := [ {| s_name := "Algorithms";
                                      resources := [] |} ] |} ] |} ] |}
  = Ok (SearchResults [record_of "2nd Year" "ECE" "Signals" signals_notes]).
Proof. vm_compute. reflexivity. Qed.

(** ** File names *)

Lemma length_append (a b : string) :
  String.length (a +:+ b) = String.length a + String.length b.
Proof. induction a as [|c a IH]; [done|]. rewrite append_cons. simpl. by rewrite IH. Qed.

Lemma append_assoc (a b c : string) : (a +:+ b) +:+ c = a +:+ (b +:+ c).
Proof. induction a as [|x a IH]; [done|]. by rewrite !append_cons, IH. Qed.

Lemma append_inj_r (a b c : string) : a +:+ c = b +:+ c → a = b.
Proof.
  revert b. induction a as [|x a IH]; intros [|y b] Heq; [done| | |].
  - apply (f_equal String.length) in Heq.
    rewrite append_nil_l, !length_append in Heq. simpl in Heq. lia.
  - apply (f_equal String.length) in Heq.
    rewrite append_nil_l, !length_append in Heq. simpl in Heq. lia.
  - rewrite !append_cons in Heq. injection Heq as -> Heq. f_equal. by apply IH.
Qed.

Lemma candidate_inj (base ext : string) (i j : nat) :
  candidate base ext i = candidate base ext j → i = j.
Proof.
  destruct i as [|i], j as [|j]; unfold candidate; intros Heq; [done| | |].
  - apply (f_equal String.length) in Heq.
    rewrite !length_append in Heq. simpl in Heq. lia.
  - apply (f_equal String.length) in Heq.
    rewrite !length_append in Heq. simpl in Heq. lia.
  - apply (inj (String.append base)), (inj (String.append "_")) in Heq.
    apply append_inj_r in Heq. by apply (inj pretty) in Heq.
Qed.

Lemma path_join_inj (folder a b : string) :
  path_join folder a = path_join folder b → a = b.
Proof.
  unfold path_join. intros Heq.
  by apply (inj (String.append folder)), (inj (String.append "/")) in Heq.
Qed.

Lemma path_exists_entry (fs : filesystem) (folder name : string) :
  path_exists fs (path_join folder name) = true →
  path_join folder name ∈ folder_entries fs folder.
Proof.
  unfold path_exists, folder_entries. intros Hex%bool_decide_eq_true.
  apply elem_of_filter. split; [|done].
  apply prefix_spec. exists name. unfold path_join. by rewrite append_assoc.
Qed.

(** Fewer candidates can exist than the folder has entries. *)
Lemma candidates_bounded (fs : filesystem) (folder base ext : string) (k : nat) :
  (∀ i, i < k → path_exists fs (path_join folder (candidate base ext i)) = true) →
  k ≤ size (folder_entries fs folder).
Proof.
  intros Hex.
  set (paths := (λ i, path_join folder (candidate base ext i)) <$> seq 0 k).
  assert (NoDup paths) as Hnd.
  { apply NoDup_fmap_2; [|apply NoDup_seq].
    intros i j Hij. by eapply candidate_inj, path_join_inj. }
  assert (list_to_set paths ⊆ folder_entries fs folder) as Hsub.
  { intros p Hp. apply elem_of_list_to_set in Hp.
    apply list_elem_of_fmap in Hp as (i & -> & Hi).
    apply elem_of_seq in Hi. apply path_exists_entry, Hex. lia. }
  apply subseteq_size in Hsub.
  rewrite size_list_to_set in Hsub by done.
  unfold paths in Hsub. by rewrite length_fmap, length_seq in Hsub.
Qed.

Section unique_filename_facts.
Context `{PyLib}.
Variables (fs : filesystem) (folder base ext : string).

Local Abbreviation taken k :=
  (path_exists fs (path_join folder (candidate base ext k))).

Lemma loop_step (fuel k : nat) :
  unique_filename_loop (S fuel) fs folder base ext (S k) (candidate base ext k)
  = if taken k
    then unique_filename_loop fuel fs folder base ext (S (S k))
           (candidate base ext (S k))
    else Some (candidate base ext k).
Proof. done. Qed.

(** What the loop returns is the first candidate that is not taken. *)
Lemma loop_returns (fuel k : nat) (r : string) :
  unique_filename_loop fuel fs folder base ext (S k) (candidate base ext k) = Some r →
  ∃ j, k ≤ j < k + fuel ∧ r = candidate base ext j ∧ taken j = false ∧
       ∀ i, k ≤ i < j → taken i = true.
Proof.
  revert k. induction fuel as [|fuel IH]; intros k; [done|].
  rewrite loop_step. destruct (taken k) eqn:Hk.
  - intros (j & Hj & -> & Hfree & Hbefore)%IH. exists j.
    split; [lia|]. split; [done|]. split; [done|].
    intros i Hi. destruct (decide (i = k)) as [->|]; [done|]. apply Hbefore. lia.
  - intros [= <-]. exists k. split; [lia|]. split; [done|]. split; [done|]. lia.
Qed.

(** The loop returns as soon as its tests reach a candidate that is not
    taken. *)
Lemma loop_reaches (fuel k j : nat) :
  k ≤ j < k + fuel → taken j = false → (∀ i, k ≤ i < j → taken i = true) →
  unique_filename_loop fuel fs folder base ext (S k) (candidate base ext k)
  = Some (candidate base ext j).
Proof.
  revert k. induction fuel as [|fuel IH]; intros k Hj Hfree Hbefore; [lia|].
  rewrite loop_step. destruct (decide (k = j)) as [->|Hne].
  - by rewrite Hfree.
  - rewrite Hbefore by lia. apply IH; [lia|done|]. intros i Hi. apply Hbefore. lia.
Qed.

(** Some candidate among the first [size + 1] is not taken. *)
Lemma first_free :
  ∃ j, j ≤ size (folder_entries fs folder) ∧ taken j = false ∧
       ∀ i, i < j → taken i = true.
Proof.
  assert (∀ n, (∀ i, i < n → taken i = true) ∨
               ∃ j, j < n ∧ taken j = false ∧ ∀ i, i < j → taken i = true) as Hscan.
  { induction n as [|n [Hall|(j & ? & ? & ?)]].
    - left. lia.
    - destruct (taken n) eqn:Hn.
      + left. intros i Hi. destruct (decide (i = n)) as [->|]; [done|].
        apply Hall. lia.
      + right. exists n. split; [lia|]. split; [done|]. intros i Hi. by apply Hall.
    - right. exists j. split; [lia|]. done. }
  destruct (Hscan (S (size (folder_entries fs folder)))) as [Hall|(j & ? & ? & ?)].
  - apply candidates_bounded in Hall. lia.
  - exists j. split; [lia|]. done.
Qed.
End unique_filename_facts.


(** The loop returns the first candidate that is not taken, which comes
    after at most as many taken ones as the folder has entries. *)
Lemma unique_filename_run `{PyLib} (fs : filesystem) (folder name : string) :
  ∃ k, k ≤ size (folder_entries fs folder) ∧
       path_exists fs (path_join folder
                         (candidate (splitext name).1 (splitext name).2 k)) = false ∧
       (∀ i, i < k →
             path_exists fs (path_join folder
                               (candidate (splitext name).1 (splitext name).2 i))
             = true) ∧
       ∀ fuel, k < fuel →
               unique_filename fuel fs folder name
               = Some (candidate (splitext name).1 (splitext name).2 k).
Proof.
  unfold unique_filename. destruct (splitext name) as [base ext]. simpl.
  destruct (first_free fs folder base ext) as (k & Hk & Hfree & Hbefore).
  exists k. split; [done|]. split; [done|]. split; [done|].
  intros fuel Hfuel.
  change (base +:+ ext) with (candidate base ext 0).
  apply loop_reaches; [lia|done|]. intros i Hi. apply Hbefore. lia.
Qed.


Lemma unique_filename_deterministic `{PyLib} (fs : filesystem)
    (folder name r r' : string) :
  returns_name fs folder name r → returns_name fs folder name r' → r = r'.
Proof.
  intros [fuel Hr] [fuel' Hr']. unfold unique_filename in *.
  destruct (splitext name) as [base ext].
  change (base +:+ ext) with (candidate base ext 0) in *.
  apply loop_returns in Hr as (j & _ & -> & Hj & Hbefore).
  apply loop_returns in Hr' as (j' & _ & -> & Hj' & Hbefore').
  destruct (Nat.lt_trichotomy j j') as [Hlt|[->|Hlt]]; [|done|].
  - rewrite Hbefore' in Hj by lia. done.
  - rewrite Hbefore in Hj' by lia. done.
Qed.




(** ** Storage *)

Lemma save_manifest_only `{PyLib} (m : Manifest) (fs : filesystem) :
  only_manifest_written [OpWrite MANIFEST_FILE] fs (save_manifest m fs).
Proof.
  unfold save_manifest, write_file, only_manifest_written. cbn [files oplog].
  split; [done|]. split; [by constructor; [right|constructor]|]. split.
  - intros p Hp. by rewrite lookup_insert_ne.
  - rewrite dom_insert_L. set_solver.
Qed.

Lemma ensure_dirs_only `{PyLib} (fs : filesystem) :
  ∃ ops, only_manifest_written ops fs (ensure_dirs fs).
Proof.
  unfold ensure_dirs. destruct (path_exists _ _).
  - exists [OpMkdir STATIC_DIR]. unfold only_manifest_written, mkdir. cbn [files oplog].
    split; [done|]. split; [by constructor; [left|constructor]|]. done.
  - exists [OpMkdir STATIC_DIR; OpWrite MANIFEST_FILE].
    unfold only_manifest_written, write_file, mkdir. cbn [files oplog].
    split; [by rewrite <- app_assoc|].
    split; [by constructor; [left|constructor; [right|constructor]]|]. split.
    + intros p Hp. by rewrite lookup_insert_ne.
    + rewrite dom_insert_L. set_solver.
Qed.

Lemma only_manifest_written_trans (ops1 ops2 : list fs_op) (fs1 fs2 fs3 : filesystem) :
  only_manifest_written ops1 fs1 fs2 → only_manifest_written ops2 fs2 fs3 →
  only_manifest_written (ops1 ++ ops2) fs1 fs3.
Proof.
  intros (Hl1 & Ho1 & Hf1 & Hd1) (Hl2 & Ho2 & Hf2 & Hd2). split; [|split; [|split]].
  - by rewrite Hl2, Hl1, app_assoc.
  - by apply Forall_app.
  - intros p Hp. by rewrite Hf2, Hf1.
  - by etrans.
Qed.

(** ** The add form *)

Lemma truthy_true (s : string) : s ≠ "" → truthy s = true.
Proof. intros Hs. unfold truthy. apply negb_true_iff. by apply String.eqb_neq. Qed.

(** The bound the form gives to [unique_filename] is never used up. *)
Lemma unique_filename_in_form `{PyLib} (fs : filesystem) (folder name : string) :
  ∃ safe_name,
    unique_filename (S (size (files fs))) fs folder name = Some safe_name ∧
    path_exists fs (path_join folder safe_name) = false.
Proof.
  destruct (unique_filename_run fs folder name) as (k & Hk & Hfree & _ & Hrun).
  eexists. split; [|exact Hfree]. apply Hrun.
  assert (size (folder_entries fs folder) ≤ size (files fs)); [|lia].
  rewrite <- size_dom. apply subseteq_size. unfold folder_entries.
  intros p Hp. by apply elem_of_filter in Hp as [_ ?].
Qed.

(** The branch that no submission reaches: were the type "file", the
    uploaded file would be written under a free name of the static folder
    and a file resource recording that path would be added. *)
Lemma file_branch_saves `{PyLib} (f : form) (now : string)
    (manifest : Manifest) (fs : filesystem) (uploaded_file : upload) :
  in_type f = "file" → in_file f = Some uploaded_file → in_submitted f = true →
  in_year f ≠ "" → in_branch f ≠ "" → in_subject f ≠ "" → in_title f ≠ "" →
  ∃ safe_name manifest' fs',
    add_resource_form f now manifest fs
    = Ok (ResourceAdded (file_resource (in_title f) safe_name now) manifest' fs') ∧
    path_exists (ensure_dirs fs) (path_join STATIC_DIR safe_name) = false ∧
    files fs' !! path_join STATIC_DIR safe_name = Some (up_buffer uploaded_file) ∧
    path (file_resource (in_title f) safe_name now)
    = Some (path_join STATIC_DIR safe_name).
Proof.
  intros Htype Hfile Hsub Hy Hb Hs Ht. unfold add_resource_form.
  rewrite Hsub, !truthy_true by done. cbn [andb negb].
  rewrite Htype, Hfile. rewrite bool_decide_eq_false_2 by done. cbn [andb].
  rewrite (decide_False (P := "file" = "link")) by done.
  rewrite (decide_True (P := "file" = "file")) by done.
  destruct (unique_filename_in_form (ensure_dirs fs) STATIC_DIR
              (up_name uploaded_file)) as (safe_name & -> & Hfree).
  pose proof (add_resource_snd manifest (str_strip (in_year f))
                (str_strip (in_branch f)) (str_strip (in_subject f))
                (file_resource (in_title f) safe_name now)
                (write_file (ensure_dirs fs) (path_join STATIC_DIR safe_name)
                   (up_buffer uploaded_file))) as Hsnd.
  destruct (add_resource _ _ _ _ _ _) as [m1 fs1]. simpl in Hsnd.
  exists safe_name, m1, fs1. split; [done|]. split; [done|]. split; [|done].
  rewrite Hsnd. unfold save_manifest, write_file. cbn [files].
  rewrite lookup_insert_ne; [apply lookup_insert_eq|].
  unfold MANIFEST_FILE, path_join, STATIC_DIR. intros Heq.
  rewrite append_cons in Heq. discriminate.
Qed.

(** C4. The branch of the add form that saves the uploaded file tests
    the type against "file", and the select box only offers "link" and
    "upload_file".  So no submission takes that branch: the form raises
    nothing, and whenever it adds a resource, the resource is a link
    without a path and nothing but the manifest document is written.  A
    submission of type "upload_file" with its four fields filled in adds
    a resource of type "link" with an empty url, and the uploaded file is
    not stored. *)
Theorem upload_never_saved `{PyLib} (f : form) (now : string)
    (manifest : Manifest) (fs : filesystem) :
  in_type f ∈ res_type_options →
  (∀ e, add_resource_form f now manifest fs ≠ Raise e) ∧
  (∀ resource manifest' fs',
     add_resource_form f now manifest fs = Ok (ResourceAdded resource manifest' fs') →
     rtype resource = Some "link" ∧ path resource = None ∧
     ∃ ops, only_manifest_written ops fs fs') ∧
  (in_type f = "upload_file" → in_submitted f = true →
   in_year f ≠ "" → in_branch f ≠ "" → in_subject f ≠ "" → in_title f ≠ "" →
   ∃ manifest' fs',
     add_resource_form f now manifest fs
     = Ok (ResourceAdded (link_resource (in_title f) "" now) manifest' fs') ∧
     (manifest', fs')
     = add_resource manifest (str_strip (in_year f)) (str_strip (in_branch f))
         (str_strip (in_subject f)) (link_resource (in_title f) "" now)
         (ensure_dirs fs)).
Proof.
  intros Htype.
  assert (in_type f ≠ "file") as Hnofile.
  { intros Heq. rewrite Heq in Htype. unfold res_type_options in Htype.
    apply elem_of_cons in Htype as [?|Htype]; [done|].
    apply elem_of_cons in Htype as [?|Htype]; [done|].
    by apply elem_of_nil in Htype. }
  split; [|split].
  - intros e. unfold add_resource_form.
    destruct (in_submitted f); [|done].
    destruct (negb _); [done|].
    destruct (_ && _); [done|].
    rewrite decide_False by done.
    by destruct (add_resource _ _ _ _ _ _).
  - intros resource manifest' fs' Hrun. unfold add_resource_form in Hrun.
    destruct (in_submitted f); [|done].
    destruct (negb _); [done|].
    destruct (_ && _) in Hrun; [done|].
    rewrite decide_False in Hrun by done.
    pose proof (add_resource_snd manifest (str_strip (in_year f))
                  (str_strip (in_branch f)) (str_strip (in_subject f))
                  (link_resource (in_title f)
                     (if decide (in_type f = "link") then in_url f else "") now)
                  (ensure_dirs fs)) as Hsnd.
    destruct (add_resource _ _ _ _ _ _) as [m1 fs1]. simpl in Hsnd.
    injection Hrun as <- <- <-. split; [done|]. split; [done|].
    destruct (ensure_dirs_only fs) as [ops Hops].
    eexists. rewrite Hsnd.
    eapply only_manifest_written_trans; [exact Hops|apply save_manifest_only].
  - intros Hup Hsub Hy Hb Hs Ht. unfold add_resource_form.
    rewrite Hsub, !truthy_true by done. cbn [andb negb].
    rewrite Hup. rewrite bool_decide_eq_false_2 by done. cbn [andb].
    rewrite !decide_False by done.
    destruct (add_resource _ _ _ _ _ _) as [m1 fs1]. by exists m1, fs1.
Qed.

Lemma upload_never_saved_witness :
  let f :=
    {| in_year := "2nd Year"; in_branch := "ECE"; in_subject := "Signals";
       in_title := "Signals Notes"; in_type := "upload_file"; in_url := "";
       in_file := Some {| up_name := "notes.pdf"; up_buffer := "%PDF-1.4" |};
       in_submitted := true |} in
  let now := "2024-01-01 10:00:00.000000" in
  let fs := {| files := ∅; oplog := [] |} in
  in_type f ∈ res_type_options ∧
  ∃ manifest' fs',
    @add_resource_form ref_lib f now empty_manifest fs
    = Ok (ResourceAdded (link_resource "Signals Notes" "" now) manifest' fs') ∧
    (manifest', fs')
    = @add_resource ref_lib empty_manifest "2nd Year" "ECE" "Signals"
        (link_resource "Signals Notes" "" now) (@ensure_dirs ref_lib fs).
Proof.
  intros f now fs.
  assert (in_type f ∈ res_type_options) as Htype.
  { apply (bool_decide_unpack _). vm_compute. exact I. }
  split; [exact Htype|].
  exact (proj2 (proj2 (@upload_never_saved ref_lib f now empty_manifest fs Htype))
           eq_refl eq_refl ltac:(done) ltac:(done) ltac:(done) ltac:(done)).
Defined.

(** The upload of the witness: the stored files afterwards are the
    manifest document alone. *)
Example upload_not_stored :
  match @add_resource_form ref_lib
          {| in_year := "2nd Year"; in_branch := "ECE"; in_subject := "Signals";
             in_title := "Signals Notes"; in_type := "upload_file"; in_url := "";
             in_file := Some {| up_name := "notes.pdf"; up_buffer := "%PDF-1.4" |};
             in_submitted := true |}
          "2024-01-01 10:00:00.000000" empty_manifest
          {| files := ∅; oplog := [] |} with
  | Ok (ResourceAdded resource _ fs') =>
      rtype resource = Some "link" ∧ dom (files fs') = {[ MANIFEST_FILE ]}
  | _ => False
  end.
Proof. vm_compute. split; reflexivity. Qed.

(** ** Deleting *)

Lemma py_remove_split {A : Type} `{EqDecision A} (x : A) (l : list A) :
  x ∈ l →
  ∃ before after,
    l = before ++ x :: after ∧ (x ∉ before) ∧
    py_remove x l = Some (before ++ after).
Proof.
  induction l as [|y l IH]; intros Hin; [by apply elem_of_nil in Hin|].
  cbn [py_remove]. destruct (decide (y = x)) as [->|Hne].
  - exists [], l. split; [done|]. split; [apply not_elem_of_nil|done].
  - apply elem_of_cons in Hin as [->|Hin]; [done|].
    destruct (IH Hin) as (before & after & -> & Hnot & ->).
    exists (y :: before), after. split; [done|]. split; [|done].
    apply not_elem_of_cons. split; [congruence|done].
Qed.

Lemma flatten_years_year (l : list Year) (r : FlatRecord) :
  r ∈ flatten_years l → f_year r ∈ y_name <$> l.
Proof.
  unfold flatten_years. intros (y & Hr & Hy)%list_elem_of_bind.
  apply list_elem_of_fmap. exists y. split; [|done].
  unfold flatten_year in Hr. apply list_elem_of_bind in Hr as (b & Hr & _).
  unfold flatten_branch in Hr. apply list_elem_of_bind in Hr as (s & Hr & _).
  unfold flatten_subject in Hr. by apply list_elem_of_fmap in Hr as (res & -> & _).
Qed.

(** C7. Deleting a year removes it from the manifest's years: the
    flattened view loses the records of that year, those of the other
    years staying in place, and with unique year names no record of that
    year's name is left.  Nothing is removed from storage: the manifest
    document is rewritten and every other file, the files of the
    file resources of the deleted year included, is still there with its
    content. *)
Theorem delete_year_cascade `{PyLib} (manifest : Manifest) (year : Year)
    (fs : filesystem) :
  year ∈ years manifest →
  ∃ before after manifest' fs',
    delete_year year manifest fs = Ok (manifest', fs') ∧
    years manifest = before ++ year :: after ∧
    years manifest' = before ++ after ∧
    flatten_resources manifest
      = flatten_years before ++ flatten_year year ++ flatten_years after ∧
    flatten_resources manifest' = flatten_years before ++ flatten_years after ∧
    (NoDup (y_name <$> years manifest) →
     ∀ r, r ∈ flatten_resources manifest' → f_year r ≠ y_name year) ∧
    only_manifest_written [OpWrite MANIFEST_FILE] fs fs' ∧
    (∀ r p, r ∈ flatten_year year → f_type r = Some "file" → f_path r = Some p →
            p ∈ dom (files fs) → p ∈ dom (files fs')).
Proof.
  intros Hin.
  destruct (py_remove_split year (years manifest) Hin)
    as (before & after & Hsplit & _ & Hrm).
  exists before, after, {| years := before ++ after |},
    (save_manifest {| years := before ++ after |} fs).
  pose proof (save_manifest_only {| years := before ++ after |} fs) as Honly.
  split; [unfold delete_year; by rewrite Hrm|].
  split; [done|]. split; [done|].
  split; [by rewrite flatten_resources_years, Hsplit, flatten_years_app,
            flatten_years_cons|].
  split; [rewrite flatten_resources_years; apply flatten_years_app|].
  split; [|split; [done|]].
  - intros Hnd r Hr Hname.
    rewrite flatten_resources_years in Hr. cbn [years] in Hr.
    apply flatten_years_year in Hr. rewrite Hname in Hr.
    rewrite Hsplit, fmap_app, fmap_cons in Hnd.
    apply NoDup_app in Hnd as (_ & Hdisj & Hnd).
    apply NoDup_cons in Hnd as [Hnot _].
    rewrite fmap_app in Hr. apply elem_of_app in Hr as [Hr|Hr]; [|done].
    apply (Hdisj _ Hr). by left.
  - intros r p _ _ _ Hp. destruct Honly as (_ & _ & _ & Hdom). by apply Hdom.
Qed.

Lemma delete_year_cascade_witness :
  second_year ∈ years sample_manifest ∧
  NoDup (y_name <$> years sample_manifest) ∧
  ∃ manifest' fs',
    @delete_year ref_lib second_year sample_manifest sample_storage
    = Ok (manifest', fs') ∧
    flatten_resources manifest' = [] ∧
    (∀ r, r ∈ flatten_resources manifest' → f_year r ≠ "2nd Year") ∧
    "static/notes.pdf" ∈ dom (files fs').
Proof.
  assert (second_year ∈ years sample_manifest) as Hin by (by left).
  assert (NoDup (y_name <$> years sample_manifest)) as Hnd
    by (apply (bool_decide_unpack _); vm_compute; exact I).
  split; [exact Hin|]. split; [exact Hnd|].
  destruct (@delete_year_cascade ref_lib sample_manifest second_year
              sample_storage Hin)
    as (before & after & manifest' & fs' & Hrun & Hsplit & Hyears & _ & Hflat
        & Hgone & _ & Hkept).
  exists manifest', fs'. split; [exact Hrun|].
  vm_compute in Hrun. injection Hrun as <- <-.
  split; [reflexivity|]. split; [exact (Hgone Hnd)|].
  apply (Hkept (record_of "2nd Year" "ECE" "Signals" notes_file) "static/notes.pdf").
  - right. left.
  - reflexivity.
  - reflexivity.
  - apply (bool_decide_unpack _). vm_compute. exact I.
Defined.

Lemma insert_alter {A : Type} (f : A → A) (l : list A) (i : nat) (x : A) :
  l !! i = Some x → <[i := f x]> l = alter f i l.
Proof.
  intros Hi. apply list_eq. intros j. destruct (decide (i = j)) as [<-|Hne].
  - rewrite list_lookup_insert_eq by (by eapply lookup_lt_Some).
    by rewrite list_lookup_alter_eq, Hi.
  - by rewrite list_lookup_insert_ne, list_lookup_alter_ne.
Qed.

Lemma delete_resource_run `{PyLib} (yi bi si ri : nat) (manifest : Manifest)
    (fs fs1 : filesystem) (year : Year) (branch : Branch) (subject : Subject)
    (res : Resource) (rs : list Resource) :
  years manifest !! yi = Some year → branches year !! bi = Some branch →
  subjects branch !! si = Some subject → resources subject !! ri = Some res →
  remove_backing_file res fs = Ok fs1 →
  py_remove res (resources subject) = Some rs →
  delete_resource yi bi si ri manifest fs
  = Some (Ok (set_resources yi bi si rs manifest,
              save_manifest (set_resources yi bi si rs manifest) fs1)).
Proof.
  intros Hy Hb Hs Hr Hfile Hrm. unfold delete_resource.
  rewrite Hy. cbn [mbind option_bind]. rewrite Hb. cbn [mbind option_bind].
  rewrite Hs. cbn [mbind option_bind]. rewrite Hr. cbn [mbind option_bind].
  rewrite Hfile, Hrm.
  assert ({| years :=
               <[yi := {| y_name := y_name year;
                          branches :=
                            <[bi := {| b_name := b_name branch;
                                       subjects :=
                                         <[si := {| s_name := s_name subject;
                                                    resources := rs |}]>
                                           (subjects branch) |}]>
                              (branches year) |}]> (years manifest) |}
          = set_resources yi bi si rs manifest) as ->; [|done].
  unfold set_resources. f_equal.
  rewrite <- (insert_alter _ _ _ _ Hy). do 2 f_equal.
  rewrite <- (insert_alter _ _ _ _ Hb). do 2 f_equal.
  by rewrite <- (insert_alter _ _ _ _ Hs).
Qed.

(** C6. The delete button of a resource.  For a resource of type "file"
    whose recorded path exists, the file at that path is removed first,
    and the manifest is saved afterwards without the resource; when the
    path is missing or no file is there, the removal is skipped without
    an error.  For a resource of any other type, "link" included, no file
    is looked up or removed.  Apart from that removal, the only change to
    storage is the rewritten manifest document. *)
Theorem delete_resource_file `{PyLib} (yi bi si ri : nat) (manifest : Manifest)
    (fs : filesystem) (year : Year) (branch : Branch) (subject : Subject)
    (res : Resource) :
  years manifest !! yi = Some year → branches year !! bi = Some branch →
  subjects branch !! si = Some subject → resources subject !! ri = Some res →
  ∃ before after,
    resources subject = before ++ res :: after ∧ (res ∉ before) ∧
    let manifest' := set_resources yi bi si (before ++ after) manifest in
    (∀ p, rtype res = Some "file" → path res = Some p →
          os_path_exists fs p = true →
          ∃ fs1, remove_backing_file res fs = Ok fs1 ∧
                 files fs1 = delete p (files fs) ∧
                 oplog fs1 = oplog fs ++ [OpRemove p] ∧
                 delete_resource yi bi si ri manifest fs
                 = Some (Ok (manifest', save_manifest manifest' fs1))) ∧
    (rtype res = Some "file" →
     os_path_exists fs (default "" (path res)) = false →
     delete_resource yi bi si ri manifest fs
     = Some (Ok (manifest', save_manifest manifest' fs)) ∧
     only_manifest_written [OpWrite MANIFEST_FILE] fs (save_manifest manifest' fs)) ∧
    (∀ t, rtype res = Some t → t ≠ "file" →
          delete_resource yi bi si ri manifest fs
          = Some (Ok (manifest', save_manifest manifest' fs)) ∧
          only_manifest_written [OpWrite MANIFEST_FILE] fs
            (save_manifest manifest' fs)).
Proof.
  intros Hy Hb Hs Hr.
  destruct (py_remove_split res (resources subject)) as (before & after & Hsplit & Hnot & Hrm).
  { by eapply list_elem_of_lookup_2. }
  exists before, after. split; [done|]. split; [done|].
  intros manifest'. split; [|split].
  - intros p Htype Hpath Hex.
    assert (path_exists fs p = true) as Hex'.
    { unfold os_path_exists in Hex. by destruct (decide (p = "")). }
    exists {| files := delete p (files fs); oplog := oplog fs ++ [OpRemove p] |}.
    assert (remove_backing_file res fs
            = Ok {| files := delete p (files fs);
                    oplog := oplog fs ++ [OpRemove p] |}) as Hfile.
    { unfold remove_backing_file. rewrite Htype, Hpath.
      change (default "" (Some p)) with p. rewrite Hex. rewrite bool_decide_eq_true_2 by done. cbn [andb].
      unfold os_remove. by rewrite Hex'. }
    split; [done|]. split; [done|]. split; [done|].
    by eapply delete_resource_run.
  - intros Htype Hex. split; [|apply save_manifest_only].
    eapply delete_resource_run; [done..| |done].
    unfold remove_backing_file. rewrite Htype, Hex. by rewrite andb_false_r.
  - intros t Htype Hne. split; [|apply save_manifest_only].
    eapply delete_resource_run; [done..| |done].
    unfold remove_backing_file. rewrite Htype.
    by rewrite bool_decide_eq_false_2.
Qed.

Lemma delete_resource_file_witness :
  let branch := {| b_name := "ECE";
                   subjects := [ {| s_name := "Signals";
                                    resources := [signals_notes; notes_file] |} ] |} in
  let subject := {| s_name := "Signals";
                    resources := [signals_notes; notes_file] |} in
  years sample_manifest !! 0 = Some second_year ∧
  branches second_year !! 0 = Some branch ∧
  subjects branch !! 0 = Some subject ∧
  resources subject !! 1 = Some notes_file ∧
  ∃ before after,
    resources subject = before ++ notes_file :: after ∧
    ∃ fs1,
      @remove_backing_file notes_file sample_storage = Ok fs1 ∧
      files fs1 = delete "static/notes.pdf" (files sample_storage) ∧
      oplog fs1 = [OpRemove "static/notes.pdf"] ∧
      @delete_resource ref_lib 0 0 0 1 sample_manifest sample_storage
      = Some (Ok (set_resources 0 0 0 (before ++ after) sample_manifest,
                  @save_manifest ref_lib
                    (set_resources 0 0 0 (before ++ after) sample_manifest) fs1)).
Proof.
  intros branch subject.
  split; [reflexivity|]. split; [reflexivity|].
  split; [reflexivity|]. split; [reflexivity|].
  destruct (@delete_resource_file ref_lib 0 0 0 1 sample_manifest sample_storage
              second_year branch subject notes_file
              eq_refl eq_refl eq_refl eq_refl)
    as (before & after & Hsplit & _ & Hfile & _).
  exists before, after. split; [exact Hsplit|].
  apply (Hfile "static/notes.pdf"); reflexivity.
Defined.

(** Deleting the link of the sample manifest and then its file: the link
    leaves the stored file in place, the file resource takes its file
    with it. *)
Example delete_link_then_file :
  match @delete_resource ref_lib 0 0 0 0 sample_manifest sample_storage with
  | Some (Ok (manifest1, fs1)) =>
      oplog fs1 = [OpWrite MANIFEST_FILE] ∧
      dom (files fs1) = {[ "static/notes.pdf"; MANIFEST_FILE ]} ∧
      match @delete_resource ref_lib 0 0 0 0 manifest1 fs1 with
      | Some (Ok (manifest2, fs2)) =>
          flatten_resources manifest2 = [] ∧
          oplog fs2 = [OpWrite MANIFEST_FILE; OpRemove "static/notes.pdf";
                       OpWrite MANIFEST_FILE] ∧
          dom (files fs2) = {[ MANIFEST_FILE ]}
      | _ => False
      end
  | _ => False
  end.
Proof. vm_compute. repeat split; reflexivity. Qed.

(** ** Manifest store *)

Lemma ensure_dirs_keeps `{PyLib} (fs : filesystem) (doc : string) :
  files fs !! MANIFEST_FILE = Some doc →
  files (ensure_dirs fs) = files fs.
Proof.
  intros Hdoc. unfold ensure_dirs.
  assert (path_exists (mkdir fs STATIC_DIR) MANIFEST_FILE = true) as ->; [|done].
  unfold path_exists, mkdir. cbn [files]. apply bool_decide_eq_true.
  apply elem_of_dom. by eexists.
Qed.

(** Without a persisted document [load_manifest] first writes the default
    one and reads it back. *)
Lemma load_manifest_fresh `{PyLib} (fs : filesystem) :
  files fs !! MANIFEST_FILE = None →
  json_load (json_dump empty_manifest) = Some empty_manifest →
  ∃ fs1,
    load_manifest fs = (Ok empty_manifest, fs1) ∧
    files fs1 = <[MANIFEST_FILE := json_dump empty_manifest]> (files fs).
Proof.
  intros Hnone Hback. unfold load_manifest, ensure_dirs.
  assert (path_exists (mkdir fs STATIC_DIR) MANIFEST_FILE = false) as ->.
  { unfold path_exists, mkdir. cbn [files]. apply bool_decide_eq_false.
    by apply not_elem_of_dom. }
  unfold write_file, mkdir. cbn [files]. rewrite lookup_insert_eq, Hback.
  by eexists.
Qed.



(** A document that is not in canonical form: the same manifest with
    blanks around it.  The round trip rewrites it into the canonical
    form, which parses to the same manifest. *)
Example roundtrip_normalizes :
  let doc := "  " +:+ Ref.dump sample_manifest +:+ " " in
  let fs := {| files := {[ MANIFEST_FILE := doc ]}; oplog := [] |} in
  match @load_manifest ref_lib fs with
  | (Ok manifest, fs1) =>
      manifest = sample_manifest ∧
      files (@save_manifest ref_lib manifest fs1) !! MANIFEST_FILE
      = Some (Ref.dump sample_manifest) ∧
      Ref.load (Ref.dump sample_manifest) = Some sample_manifest
  | _ => False
  end.
Proof. vm_compute. repeat split; reflexivity. Qed.

(** * Further properties of the code *)

(** ** Find or create, add *)

Lemma fmap_middle_same {A : Type} (nm : A → string) (pre post : list A) (x x' : A) :
  nm x' = nm x → nm <$> (pre ++ x' :: post) = nm <$> (pre ++ x :: post).
Proof. intros Heq. by rewrite !fmap_app, !fmap_cons, Heq. Qed.

(** The names of a level after a find-or-create and a change of the
    returned node that keeps its name. *)
Lemma grown_NoDup {A : Type} (nm : A → string) (n : string)
    (pre post l : list A) (x x' : A) :
  nm x = n → nm x' = n → (n ∉ nm <$> pre) →
  (l = pre ++ x :: post ∨ (l = pre ∧ post = [])) →
  NoDup (nm <$> l) → NoDup (nm <$> (pre ++ x' :: post)).
Proof.
  intros Hx Hx' Hpre [->|[-> ->]] Hnd.
  - by rewrite (fmap_middle_same nm pre post x x') by congruence.
  - rewrite fmap_app. apply NoDup_app. split; [done|]. split.
    + intros y Hy Hy'. simpl in Hy'. apply list_elem_of_singleton in Hy'.
      subst y. by rewrite Hx' in Hy.
    + apply NoDup_singleton.
Qed.

Lemma grown_Forall {A : Type} (P : A → Prop) (pre post l : list A) (x x' : A) :
  (l = pre ++ x :: post ∨ (l = pre ∧ post = [])) →
  P x' → Forall P l → Forall P (pre ++ x' :: post).
Proof.
  intros [->|[-> ->]] Hx' Hl.
  - apply Forall_app in Hl as [Hpre Hpost]. apply Forall_cons in Hpost as [_ Hpost].
    apply Forall_app. split; [done|]. by apply Forall_cons.
  - apply Forall_app. split; [done|]. by apply Forall_cons.
Qed.

Lemma grown_Forall_inv {A : Type} (P : A → Prop) (pre post l : list A) (x : A) (new : A) :
  (l = pre ++ x :: post ∨ (l = pre ∧ post = [] ∧ x = new)) →
  P new → Forall P l → P x.
Proof.
  intros [->|(-> & -> & ->)] Hnew Hl; [|done].
  apply Forall_app in Hl as [_ Hl]. by apply Forall_cons in Hl as [? _].
Qed.

Lemma grown_weaken {A : Type} (pre post l : list A) (x : A) (P : Prop) :
  (l = pre ++ x :: post ∨ (l = pre ∧ post = [] ∧ P)) →
  (l = pre ++ x :: post ∨ (l = pre ∧ post = [])).
Proof. intros [?|(? & ? & _)]; auto. Qed.

(** X1. [add_resource] keeps the sibling names unique at every level. *)
Theorem add_resource_keeps_unique_names `{PyLib} (manifest : Manifest)
    (year_name branch_name subject_name : string) (resource : Resource)
    (fs : filesystem) :
  unique_names manifest →
  unique_names
    (add_resource manifest year_name branch_name subject_name resource fs).1.
Proof.
  destruct manifest as [l]. intros [Hyears Hall]. cbn [years] in *.
  destruct (add_resource_fst l year_name branch_name subject_name resource fs)
    as (ypre & lb & ypost & bpre & ls & bpost & spre & lr & spost
        & _ & [Hypre Hy] & [Hbpre Hb] & [Hspre Hs] & ->).
  assert (NoDup (b_name <$> lb) ∧ Forall (λ b, NoDup (s_name <$> subjects b)) lb)
    as [Hbranches Hball].
  { assert (l = ypre ++ mkYear year_name lb :: ypost
            ∨ l = ypre ∧ ypost = [] ∧ mkYear year_name lb = new_year year_name)
      as Hy' by (destruct Hy as [?|(? & ? & ->)]; auto).
    apply (grown_Forall_inv _ _ _ _ _ _ Hy') in Hall; [done|].
    split; [apply NoDup_nil_2|apply Forall_nil_2]. }
  assert (NoDup (s_name <$> ls)) as Hsubjects.
  { assert (lb = bpre ++ mkBranch branch_name ls :: bpost
            ∨ lb = bpre ∧ bpost = [] ∧ mkBranch branch_name ls = new_branch branch_name)
      as Hb' by (destruct Hb as [?|(? & ? & ->)]; auto).
    apply (grown_Forall_inv _ _ _ _ _ _ Hb') in Hball; [done|]. apply NoDup_nil_2. }
  split; cbn [years].
  - eapply (grown_NoDup y_name year_name ypre ypost l (mkYear year_name lb));
      [done..|by eapply grown_weaken|done].
  - eapply grown_Forall; [by eapply grown_weaken| |done]. cbn [branches]. split.
    + eapply (grown_NoDup b_name branch_name bpre bpost lb (mkBranch branch_name ls));
        [done..|by eapply grown_weaken|done].
    + eapply grown_Forall; [by eapply grown_weaken| |done]. cbn [subjects].
      eapply (grown_NoDup s_name subject_name spre spost ls
                (mkSubject subject_name lr));
        [done..|by eapply grown_weaken|done].
Qed.

Lemma add_resource_keeps_unique_names_witness :
  unique_names sample_manifest ∧
  unique_names
    (@add_resource ref_lib sample_manifest "3rd Year" "CSE" "Algorithms"
       signals_notes sample_storage).1.
Proof.
  assert (unique_names sample_manifest) as Hu.
  { unfold unique_names. apply (bool_decide_unpack _). vm_compute. exact I. }
  split; [exact Hu|].
  exact (@add_resource_keeps_unique_names ref_lib sample_manifest
           "3rd Year" "CSE" "Algorithms" signals_notes sample_storage Hu).
Defined.

(** ** Flatten *)

Lemma length_bind {A B : Type} (f : A → list B) (l : list A) :
  length (l ≫= f) = sum_list (length ∘ f <$> l).
Proof.
  induction l as [|x l IH]; [done|].
  rewrite bind_cons, length_app, IH. done.
Qed.

Lemma sum_list_bind {A : Type} (f : A → list nat) (l : list A) :
  sum_list (l ≫= f) = sum_list (sum_list ∘ f <$> l).
Proof.
  induction l as [|x l IH]; [done|].
  rewrite bind_cons, sum_list_with_app. simpl. by rewrite IH.
Qed.

(** X2. [flatten_resources] lists the resources of the tree and nothing
    else: a record is in the result exactly when it is the record of a
    resource of a subject of a branch of a year of the manifest, and the
    result has as many records as the manifest has resources. *)
Theorem flatten_resources_complete (manifest : Manifest) :
  (∀ r, r ∈ flatten_resources manifest ↔
        ∃ year branch subject res,
          year ∈ years manifest ∧ branch ∈ branches year ∧
          subject ∈ subjects branch ∧ res ∈ resources subject ∧
          r = flat_record year branch subject res) ∧
  length (flatten_resources manifest) = total_resources manifest.
Proof.
  rewrite flatten_resources_years. split.
  - intros r. unfold flatten_years. rewrite list_elem_of_bind. split.
    + intros (year & Hr & Hyear). unfold flatten_year in Hr.
      apply list_elem_of_bind in Hr as (branch & Hr & Hbranch).
      unfold flatten_branch in Hr.
      apply list_elem_of_bind in Hr as (subject & Hr & Hsubject).
      unfold flatten_subject in Hr.
      apply list_elem_of_fmap in Hr as (res & -> & Hres). eauto 10.
    + intros (year & branch & subject & res & ? & ? & ? & ? & ->).
      exists year. split; [|done]. unfold flatten_year.
      apply list_elem_of_bind. exists branch. split; [|done]. unfold flatten_branch.
      apply list_elem_of_bind. exists subject. split; [|done]. unfold flatten_subject.
      by apply list_elem_of_fmap_2.
  - unfold flatten_years, total_resources.
    rewrite length_bind, sum_list_bind. f_equal.
    apply list_fmap_ext. intros _ year _. cbn [compose].
    unfold flatten_year. rewrite length_bind, sum_list_bind. f_equal.
    apply list_fmap_ext. intros _ branch _. cbn [compose].
    unfold flatten_branch. rewrite length_bind. f_equal.
    apply list_fmap_ext. intros _ subject _. cbn [compose].
    unfold flatten_subject. by rewrite length_fmap.
Qed.

(** ** Search *)

(** X3. One resource without a title breaks every search: whatever the
    non-empty query, and whether the other fields of that resource match
    it or not, the search raises [AttributeError]. *)
Theorem search_breaks_on_missing_title `{PyLib} (manifest : Manifest) (q : string) :
  q ≠ "" →
  Exists (λ r, f_title r = None) (flatten_resources manifest) →
  display q manifest = Raise AttributeError.
Proof.
  intros Hq Hmissing. unfold display. rewrite truthy_true by done.
  by rewrite search_comprehension_missing_title.
Qed.

Lemma search_breaks_on_missing_title_witness :
  let untitled := {| title := None; rtype := Some "link";
                     url := Some "http://y"; path := None; meta := None |} in
  let manifest :=
    (@add_resource ref_lib sample_manifest "3rd Year" "CSE" "Algorithms"
       untitled sample_storage).1 in
  "Signals" ≠ "" ∧
  Exists (λ r, f_title r = None) (flatten_resources manifest) ∧
  @display ref_lib "Signals" manifest = Raise AttributeError.
Proof.
  intros untitled manifest.
  assert ("Signals" ≠ "") as Hq by done.
  assert (Exists (λ r, f_title r = None) (flatten_resources manifest)) as Hm.
  { apply (bool_decide_unpack _). vm_compute. exact I. }
  split; [exact Hq|]. split; [exact Hm|].
  exact (@search_breaks_on_missing_title ref_lib manifest "Signals" Hq Hm).
Defined.

Lemma append_nil_r (a : string) : a +:+ "" = a.
Proof. induction a as [|c a IH]; [done|]. by rewrite append_cons, IH. Qed.

Lemma contains_refl (a : string) : contains a a.
Proof. exists "", "". by rewrite append_nil_l, append_nil_r. Qed.

(** X4. A resource that was just added is found.  In a manifest whose
    resources have titles, after [add_resource] of a resource with a
    title, the search for the title, or for the name of the subject, the
    branch or the year it was added under, returns the record of that
    resource among its results. *)
Theorem added_resource_is_found `{PyLib} (manifest : Manifest)
    (year_name branch_name subject_name : string) (resource : Resource)
    (fs : filesystem) (t q : string) :
  Forall (λ r, is_Some (f_title r)) (flatten_resources manifest) →
  title resource = Some t →
  q ∈ [t; subject_name; branch_name; year_name] → q ≠ "" →
  ∃ results,
    display q
      (add_resource manifest year_name branch_name subject_name resource fs).1
    = Ok (SearchResults results) ∧
    record_of year_name branch_name subject_name resource ∈ results.
Proof.
  intros Htitles Ht Hq Hne.
  destruct (add_resource_flatten manifest year_name branch_name subject_name
              resource fs) as (before & after & Hm & Hm').
  eexists. split.
  - unfold display. rewrite truthy_true by done.
    rewrite search_comprehension_filter; [done|].
    rewrite Hm'. rewrite Hm in Htitles.
    apply Forall_app in Htitles as [Hb Ha].
    apply Forall_app. split; [done|]. apply Forall_cons. split; [|done].
    simpl. by rewrite Ht.
  - rewrite Hm'. apply list_elem_of_filter. split.
    + unfold spec_matches, field_contains. cbn [record_of f_title f_subject f_branch f_year].
      rewrite Ht. cbn [from_option].
      repeat (apply elem_of_cons in Hq as [->|Hq];
              [eauto using contains_refl|]).
      by apply elem_of_nil in Hq.
    + apply elem_of_app. right. by left.
Qed.

Lemma added_resource_is_found_witness :
  Forall (λ r, is_Some (f_title r)) (flatten_resources sample_manifest) ∧
  title signals_notes = Some "Signals Notes" ∧
  "Algorithms" ∈ ["Signals Notes"; "Algorithms"; "CSE"; "3rd Year"] ∧
  "Algorithms" ≠ "" ∧
  ∃ results,
    @display ref_lib "Algorithms"
      (@add_resource ref_lib sample_manifest "3rd Year" "CSE" "Algorithms"
         signals_notes sample_storage).1
    = Ok (SearchResults results) ∧
    record_of "3rd Year" "CSE" "Algorithms" signals_notes ∈ results.
Proof.
  assert (Forall (λ r, is_Some (f_title r)) (flatten_resources sample_manifest))
    as Ht by (repeat constructor; by eexists).
  assert ("Algorithms" ∈ ["Signals Notes"; "Algorithms"; "CSE"; "3rd Year"])
    as Hq by (right; left).
  split; [exact Ht|]. split; [reflexivity|]. split; [exact Hq|]. split; [done|].
  exact (@added_resource_is_found ref_lib sample_manifest "3rd Year" "CSE"
           "Algorithms" signals_notes sample_storage "Signals Notes" "Algorithms"
           Ht eq_refl Hq ltac:(done)).
Defined.

(** ** Manifest store *)

Lemma ensure_dirs_files `{PyLib} (fs : filesystem) :
  files (ensure_dirs fs)
  = match files fs !! MANIFEST_FILE with
    | Some _ => files fs
    | None => <[MANIFEST_FILE := json_dump empty_manifest]> (files fs)
    end.
Proof.
  unfold ensure_dirs, path_exists, mkdir. cbn [files].
  destruct (files fs !! MANIFEST_FILE) as [doc|] eqn:Hdoc.
  - rewrite bool_decide_eq_true_2; [done|]. apply elem_of_dom. by eexists.
  - rewrite bool_decide_eq_false_2; [done|]. by apply not_elem_of_dom.
Qed.

Lemma ensure_dirs_lookup `{PyLib} (fs : filesystem) :
  files (ensure_dirs fs) !! MANIFEST_FILE
  = Some (default (json_dump empty_manifest) (files fs !! MANIFEST_FILE)) ∧
  (∀ p, p ≠ MANIFEST_FILE → files (ensure_dirs fs) !! p = files fs !! p).
Proof.
  rewrite ensure_dirs_files. destruct (files fs !! MANIFEST_FILE) eqn:E.
  - done.
  - split; [apply lookup_insert_eq|]. intros p Hp. by rewrite lookup_insert_ne.
Qed.

(** X6. [ensure_dirs] never overwrites a manifest document that exists,
    creates the default document when there is none, leaves every other
    file as it is, and a second call changes no file. *)
Theorem ensure_dirs_creates_once `{PyLib} (fs : filesystem) :
  files (ensure_dirs fs) !! MANIFEST_FILE
  = Some (default (json_dump empty_manifest) (files fs !! MANIFEST_FILE)) ∧
  (∀ p, p ≠ MANIFEST_FILE → files (ensure_dirs fs) !! p = files fs !! p) ∧
  files (ensure_dirs (ensure_dirs fs)) = files (ensure_dirs fs).
Proof.
  destruct (ensure_dirs_lookup fs) as [Hdoc Hother].
  split; [done|]. split; [done|].
  by rewrite (ensure_dirs_files (ensure_dirs fs)), Hdoc.
Qed.


(** X5. What is saved is what the next run loads: where the codec reads
    back the document it writes for a manifest, [load_manifest] after
    [save_manifest] of that manifest returns it, and changes no file. *)
Theorem load_after_save `{PyLib} (manifest : Manifest) (fs : filesystem) :
  json_load (json_dump manifest) = Some manifest →
  (load_manifest (save_manifest manifest fs)).1 = Ok manifest ∧
  files (load_manifest (save_manifest manifest fs)).2
  = files (save_manifest manifest fs).
Proof.
  intros Hback.
  assert (files (save_manifest manifest fs) !! MANIFEST_FILE
          = Some (json_dump manifest)) as Hdoc.
  { unfold save_manifest, write_file. cbn [files]. apply lookup_insert_eq. }
  unfold load_manifest.
  rewrite (ensure_dirs_keeps _ _ Hdoc), Hdoc, Hback. cbn [fst snd].
  split; [done|]. by apply ensure_dirs_keeps in Hdoc.
Qed.

Lemma load_after_save_witness :
  Ref.load (Ref.dump sample_manifest) = Some sample_manifest ∧
  (@load_manifest ref_lib (@save_manifest ref_lib sample_manifest sample_storage)).1
  = Ok sample_manifest.
Proof.
  assert (Ref.load (Ref.dump sample_manifest) = Some sample_manifest) as Hback
    by (vm_compute; reflexivity).
  split; [exact Hback|].
  exact (proj1 (@load_after_save ref_lib sample_manifest sample_storage Hback)).
Defined.

(** ** The add form *)

Lemma truthy_iff (s : string) : truthy s = true ↔ s ≠ "".
Proof.
  unfold truthy. rewrite negb_true_iff. apply String.eqb_neq.
Qed.

Lemma truthy_false (s : string) : truthy s = false ↔ s = "".
Proof.
  unfold truthy. rewrite negb_false_iff. apply String.eqb_eq.
Qed.

(** The form for a type that is not "file": the branch that builds a
    link. *)
Lemma form_without_file `{PyLib} (f : form) (now : string)
    (manifest : Manifest) (fs : filesystem) :
  in_type f ≠ "file" →
  add_resource_form f now manifest fs
  = if in_submitted f then
      if negb (truthy (in_year f) && truthy (in_branch f)
               && truthy (in_subject f) && truthy (in_title f))
      then Ok (FormError "Please fill all required fields.")
      else
        let url := if decide (in_type f = "link") then in_url f else "" in
        if bool_decide (in_type f = "link") && negb (truthy url)
        then Ok (FormError "Please provide a link URL.")
        else
          let resource := link_resource (in_title f) url now in
          let added :=
            add_resource manifest (str_strip (in_year f)) (str_strip (in_branch f))
              (str_strip (in_subject f)) resource (ensure_dirs fs) in
          Ok (ResourceAdded resource added.1 added.2)
    else Ok NotSubmitted.
Proof.
  intros Hnofile. unfold add_resource_form.
  destruct (in_submitted f); [|done].
  destruct (negb _); [done|]. cbn zeta.
  destruct (_ && _); [done|].
  rewrite decide_False by done.
  by destruct (add_resource _ _ _ _ _ _).
Qed.

Lemma selectable_not_file (ty : string) : ty ∈ res_type_options → ty ≠ "file".
Proof.
  intros Hty ->. unfold res_type_options in Hty.
  apply elem_of_cons in Hty as [?|Hty]; [done|].
  apply elem_of_cons in Hty as [?|Hty]; [done|].
  by apply elem_of_nil in Hty.
Qed.

(** X8. When the form adds a resource.  For a type of the select box, a
    resource is added exactly when the form was submitted, the year, the
    branch, the subject and the title are not empty and, for a link, the
    URL is not empty; every other submission only shows an error. *)
Theorem form_adds_iff `{PyLib} (f : form) (now : string)
    (manifest : Manifest) (fs : filesystem) :
  in_type f ∈ res_type_options →
  ((∃ resource manifest' fs',
      add_resource_form f now manifest fs
      = Ok (ResourceAdded resource manifest' fs')) ↔
   in_submitted f = true ∧ in_year f ≠ "" ∧ in_branch f ≠ "" ∧
   in_subject f ≠ "" ∧ in_title f ≠ "" ∧
   (in_type f = "link" → in_url f ≠ "")) ∧
  ((∃ message, add_resource_form f now manifest fs = Ok (FormError message)) ↔
   in_submitted f = true ∧
   (in_year f = "" ∨ in_branch f = "" ∨ in_subject f = "" ∨ in_title f = "" ∨
    (in_type f = "link" ∧ in_url f = ""))).
Proof.
  intros Htype%selectable_not_file. rewrite form_without_file by done.
  rewrite <- !truthy_iff, <- !truthy_false.
  destruct (in_submitted f); [|split; split; [by intros (? & ? & ? & ?)| |by intros [? ?]|];
                              intros [? _]; done].
  destruct (truthy (in_year f)), (truthy (in_branch f)), (truthy (in_subject f)),
    (truthy (in_title f)); cbn [andb negb];
    try (split; split; [by intros (? & ? & ? & ?)|intros (_ & ? & ? & ? & ? & _); done
                       |eauto 10|eauto 10]).
  cbn zeta. destruct (decide (in_type f = "link")) as [Hlink|Hnolink].
  - rewrite bool_decide_eq_true_2 by done. cbn [andb].
    destruct (truthy (in_url f)); cbn [negb].
    + split; split; [eauto 10|eauto 10|by intros [? ?]|].
      intros (_ & [?|[?|[?|[?|[_ ?]]]]]); done.
    + split; split; [by intros (? & ? & ? & ?)| |eauto 10|eauto 10].
      intros (_ & _ & _ & _ & _ & Hurl). by specialize (Hurl Hlink).
  - rewrite bool_decide_eq_false_2 by done. cbn [andb].
    split; split; [|eauto 10|by intros [? ?]|].
    + intros _. repeat split; done.
    + intros (_ & [?|[?|[?|[?|[? _]]]]]); done.
Qed.

Lemma form_adds_iff_witness :
  in_type link_form ∈ res_type_options ∧
  ∃ resource manifest' fs',
    @add_resource_form ref_lib link_form "2024-01-01" sample_manifest sample_storage
    = Ok (ResourceAdded resource manifest' fs').
Proof.
  assert (in_type link_form ∈ res_type_options) as Htype by (by left).
  split; [exact Htype|].
  apply (proj1 (@form_adds_iff ref_lib link_form "2024-01-01" sample_manifest
                  sample_storage Htype)).
  repeat split; done.
Defined.

Lemma add_resource_lookup `{PyLib} (manifest : Manifest) (yn bn sn : string)
    (r : Resource) (fs : filesystem) :
  ∃ old,
    lookup_subject (add_resource manifest yn bn sn r fs).1 yn bn sn
    = Some {| s_name := sn; resources := old ++ [r] |}.
Proof.
  destruct manifest as [l].
  destruct (add_resource_fst l yn bn sn r fs)
    as (ypre & lb & ypost & bpre & ls & bpost & spre & lr & spost
        & _ & [Hypre _] & [Hbpre _] & [Hspre _] & ->).
  exists lr. unfold lookup_subject. cbn [years].
  rewrite (list_find_middle y_name) by done. cbn [mbind option_bind branches].
  rewrite (list_find_middle b_name) by done. cbn [mbind option_bind subjects].
  by rewrite (list_find_middle s_name) by done.
Qed.

Lemma lookup_subject_year (manifest : Manifest) (yn bn sn : string) (s : Subject) :
  lookup_subject manifest yn bn sn = Some s → yn ∈ y_name <$> years manifest.
Proof.
  unfold lookup_subject.
  destruct (list_find _ (years manifest)) as [[i y]|] eqn:E; [|done].
  intros _. apply list_find_Some in E as (Hi & <- & _).
  apply list_elem_of_fmap_2. by eapply list_elem_of_lookup_2.
Qed.

(** X9. The form adds the resource under the stripped names.  When the
    form adds a resource, the subject reached under the year, the branch
    and the subject of the form, each stripped, has that resource as its
    last one; the title is kept as it was entered, and the manifest that
    is saved is the one that holds the resource. *)
Theorem form_adds_under_stripped_names `{PyLib} (f : form) (now : string)
    (manifest manifest' : Manifest) (fs fs' : filesystem) (resource : Resource) :
  in_type f ∈ res_type_options →
  add_resource_form f now manifest fs = Ok (ResourceAdded resource manifest' fs') →
  (∃ old,
     lookup_subject manifest' (str_strip (in_year f)) (str_strip (in_branch f))
       (str_strip (in_subject f))
     = Some {| s_name := str_strip (in_subject f);
               resources := old ++ [resource] |}) ∧
  title resource = Some (in_title f) ∧
  files fs' !! MANIFEST_FILE = Some (json_dump manifest').
Proof.
  intros Htype%selectable_not_file. rewrite form_without_file by done.
  destruct (in_submitted f); [|done].
  destruct (negb _); [done|]. cbn zeta.
  destruct (_ && _); [done|].
  intros [= <- <- <-]. split; [apply add_resource_lookup|]. split; [done|].
  rewrite add_resource_snd. unfold save_manifest, write_file. cbn [files].
  apply lookup_insert_eq.
Qed.

Lemma form_adds_under_stripped_names_witness :
  in_type link_form ∈ res_type_options ∧
  ∃ resource manifest' fs' old,
    @add_resource_form ref_lib link_form "2024-01-01" sample_manifest sample_storage
    = Ok (ResourceAdded resource manifest' fs') ∧
    lookup_subject manifest' "" "ECE" "Signals"
    = Some {| s_name := "Signals"; resources := old ++ [resource] |} ∧
    title resource = Some " Week 1 ".
Proof.
  assert (in_type link_form ∈ res_type_options) as Htype by (by left).
  split; [exact Htype|].
  destruct (@add_resource_form ref_lib link_form "2024-01-01" sample_manifest
              sample_storage) as [[| |resource manifest' fs']|] eqn:Hrun;
    try (vm_compute in Hrun; discriminate Hrun).
  destruct (@form_adds_under_stripped_names ref_lib link_form "2024-01-01"
              sample_manifest manifest' sample_storage fs' resource Htype Hrun)
    as ([old Hold] & Htitle & _).
  exists resource, manifest', fs', old. split; [reflexivity|].
  split; [exact Hold|exact Htitle].
Defined.

(** X10. The fields are checked before they are stripped: a year made of
    blanks only passes the check, and the resource is added under a year
    whose name is empty. *)
Theorem blank_name_creates_empty_name `{PyLib} (f : form) (now : string)
    (manifest : Manifest) (fs : filesystem) :
  in_type f ∈ res_type_options → in_submitted f = true →
  in_year f ≠ "" → in_branch f ≠ "" → in_subject f ≠ "" → in_title f ≠ "" →
  (in_type f = "link" → in_url f ≠ "") →
  str_strip (in_year f) = "" →
  ∃ resource manifest' fs',
    add_resource_form f now manifest fs = Ok (ResourceAdded resource manifest' fs') ∧
    "" ∈ y_name <$> years manifest'.
Proof.
  intros Htype%selectable_not_file Hsub Hy Hb Hs Ht Hurl Hblank.
  rewrite form_without_file by done.
  rewrite Hsub, !truthy_true by done. cbn [andb negb]. cbn zeta.
  assert (bool_decide (in_type f = "link")
          && negb (truthy (if decide (in_type f = "link") then in_url f else ""))
          = false) as ->.
  { destruct (decide (in_type f = "link")) as [Hlink|Hnolink].
    - rewrite truthy_true by auto. by rewrite andb_false_r.
    - by rewrite bool_decide_eq_false_2. }
  eexists _, _, _. split; [done|].
  match goal with
  | |- _ ∈ y_name <$> years (add_resource ?m ?y ?b ?s ?r ?fs0).1 =>
      destruct (add_resource_lookup m y b s r fs0) as [old Hold]
  end.
  rewrite <- Hblank at 1. by eapply lookup_subject_year.
Qed.

Lemma blank_name_creates_empty_name_witness :
  in_type link_form ∈ res_type_options ∧ in_year link_form ≠ "" ∧
  Ref.strip (in_year link_form) = "" ∧
  ∃ resource manifest' fs',
    @add_resource_form ref_lib link_form "2024-01-01" sample_manifest sample_storage
    = Ok (ResourceAdded resource manifest' fs') ∧
    "" ∈ y_name <$> years manifest'.
Proof.
  assert (in_type link_form ∈ res_type_options) as Htype by (by left).
  split; [exact Htype|]. split; [done|]. split; [reflexivity|].
  exact (@blank_name_creates_empty_name ref_lib link_form "2024-01-01"
           sample_manifest sample_storage Htype eq_refl
           ltac:(done) ltac:(done) ltac:(done) ltac:(done) ltac:(done) eq_refl).
Defined.

(** ** The flattened view around a position *)





(** ** Renaming *)






Lemma saved_spec `{PyLib} (manifest : Manifest) (message : widget) (st : page_state) :
  ∃ st', saved manifest (disk st) message st = (st', Rerun) ∧
         mem st' = manifest ∧ disk st' = save_manifest manifest (disk st) ∧
         shown st' = shown st ++ [message] ∧ saved_from (disk st) st'.
Proof.
  eexists. split; [done|]. cbn [mem disk shown show].
  split; [done|]. split; [done|]. split; [done|]. split.
  - unfold save_manifest, write_file. cbn [files]. apply lookup_insert_eq.
  - apply save_manifest_only.
Qed.






(** X13. Renaming does not check the siblings.  Renaming a year to the
    name of another year of the manifest leaves two years of that name;
    find-or-create then returns the first of them, so the later one
    receives no further resource. *)
Theorem rename_can_duplicate `{PyLib} (c : control_input) (st : page_state)
    (new_name : string) (yi yj : nat) (year other : Year) :
  years (mem st) !! yi = Some year → years (mem st) !! yj = Some other →
  yi ≠ yj → y_name other = new_name → new_name ≠ y_name year →
  edited c = Some new_name →
  ∃ st',
    year_controls c yi year st = (st', Rerun) ∧
    y_name <$> years (mem st') !! yi = Some new_name ∧
    y_name <$> years (mem st') !! yj = Some new_name ∧
    ¬ NoDup (y_name <$> years (mem st')) ∧
    (find_or_create_year (mem st') new_name).2.1 < yi `max` yj ∧
    (find_or_create_year (mem st') new_name).1 = mem st'.
Proof.
  intros Hy Ho Hij Hother Hne Hedit.
  unfold year_controls, text_value. rewrite Hedit. cbn [default from_option id].
  rewrite bool_decide_eq_true_2 by done.
  match goal with
  | |- context [saved ?m (disk st) ?msg st] =>
      destruct (saved_spec m msg st) as (st' & -> & Hmem & _)
  end.
  exists st'. split; [done|]. rewrite Hmem. unfold put_year. cbn [years].
  assert (<[yi := {| y_name := new_name; branches := branches year |}]>
            (years (mem st)) !! yi
          = Some {| y_name := new_name; branches := branches year |}) as Hi.
  { apply list_lookup_insert_eq. by eapply lookup_lt_Some. }
  assert (<[yi := {| y_name := new_name; branches := branches year |}]>
            (years (mem st)) !! yj = Some other) as Hj.
  { by rewrite list_lookup_insert_ne. }
  split; [by rewrite Hi|]. split; [by rewrite Hj; simpl; f_equal|].
  split.
  - intros Hnd. apply Hij.
    eapply (NoDup_lookup _ yi yj new_name Hnd).
    + by rewrite list_lookup_fmap, Hi.
    + rewrite list_lookup_fmap, Hj. simpl. by f_equal.
  - unfold find_or_create_year. cbn [years].
    destruct (list_find _ _) as [[k y]|] eqn:E.
    + cbn [fst snd]. split; [|done].
      apply list_find_Some in E as (_ & _ & Hleast).
      destruct (decide (k < yi `max` yj)) as [?|Hge]; [done|]. exfalso.
      destruct (decide (yi < yj)).
      * apply (Hleast yi _ Hi); [lia|done].
      * apply (Hleast yj _ Hj); [lia|done].
    + exfalso. apply list_find_None in E. rewrite Forall_forall in E.
      apply (E _ (list_elem_of_lookup_2 _ _ _ Hi)). done.
Qed.

Lemma rename_can_duplicate_witness :
  let c := {| edited := Some "2nd Year"; delete_clicked := false |} in
  let other := {| y_name := "3rd Year"; branches := [] |} in
  years (mem sample_page) !! 1 = Some other ∧
  years (mem sample_page) !! 0 = Some second_year ∧
  1 ≠ 0 ∧ y_name second_year = "2nd Year" ∧ "2nd Year" ≠ y_name other ∧
  ∃ st',
    @year_controls ref_lib c 1 other sample_page = (st', Rerun) ∧
    ¬ NoDup (y_name <$> years (mem st')) ∧
    (find_or_create_year (mem st') "2nd Year").2.1 < 1 `max` 0.
Proof.
  intros c other.
  split; [reflexivity|]. split; [reflexivity|]. split; [lia|].
  split; [reflexivity|]. split; [done|].
  destruct (@rename_can_duplicate ref_lib c sample_page "2nd Year" 1 0 other
              second_year eq_refl eq_refl ltac:(lia) eq_refl ltac:(done) eq_refl)
    as (st' & Hrun & _ & _ & Hdup & Hfirst & _).
  exists st'. split; [exact Hrun|]. split; [exact Hdup|exact Hfirst].
Defined.

(** ** Deleting *)







(** ** A resource of the browse view *)

(** X16. A resource that is not a link and whose file cannot be read
    stops the page at that resource: whatever the edit field and the
    delete button of the resource hold, the run ends with [KeyError] (no
    path) or [FileNotFoundError] (no file at the path), and neither the
    manifest nor the storage is changed.  Such a resource cannot be
    renamed or deleted from the page. *)
Theorem unreadable_resource_stops_page `{PyLib} (basename : string → string)
    (admin_mode : bool) (c : control_input) (st : page_state)
    (yi bi si ri : nat) (year : Year) (branch : Branch) (subject : Subject)
    (res : Resource) (t ty : string) :
  title res = Some t → rtype res = Some ty → ty ≠ "link" →
  (∀ p, path res = Some p → files (disk st) !! p = None) →
  ∃ st',
    resource_block basename admin_mode c yi year bi branch si subject ri res st
    = (st', Raised (PyExn match path res with
                             | Some _ => FileNotFoundError
                             | None => KeyError
                             end)) ∧
    mem st' = mem st ∧ disk st' = disk st.
Proof.
  intros Ht Hty Hne Hmissing. unfold resource_block, render_resource.
  rewrite Ht, Hty. rewrite decide_False by done.
  destruct (path res) as [p|] eqn:Hp.
  - cbn [show disk]. rewrite (Hmissing p eq_refl). eexists. by split.
  - eexists. by split.
Qed.

Lemma unreadable_resource_stops_page_witness :
  let c := {| edited := Some "New title"; delete_clicked := true |} in
  let st := {| shown := []; mem := sample_manifest;
               disk := {| files := ∅; oplog := [] |} |} in
  title notes_file = Some "Lecture Notes" ∧ rtype notes_file = Some "file" ∧
  "file" ≠ "link" ∧
  (∀ p, path notes_file = Some p → files (disk st) !! p = None) ∧
  ∃ st',
    @resource_block ref_lib id true c 0 second_year 0 sample_branch 0
      sample_subject 1 notes_file st
    = (st', Raised (PyExn FileNotFoundError)) ∧
    mem st' = mem st ∧ disk st' = disk st.
Proof.
  intros c st.
  assert (∀ p, path notes_file = Some p → files (disk st) !! p = None) as Hmissing
    by (intros p _; apply lookup_empty).
  split; [reflexivity|]. split; [reflexivity|]. split; [done|].
  split; [exact Hmissing|].
  exact (@unreadable_resource_stops_page ref_lib id true c st 0 0 0 1 second_year
           sample_branch sample_subject notes_file "Lecture Notes" "file"
           eq_refl eq_refl ltac:(done) Hmissing).
Defined.



(** ** Runs of the page *)

(** What every visited element of a loop keeps, the loop keeps. *)
Lemma for_each_inv {A : Type} (P : page_state → Prop)
    (body : nat → A → page_state → page_state * signal) (l : list A) :
  ∀ i st st' s,
    (∀ k x st st' s, l !! k = Some x → P st → body (i + k) x st = (st', s) → P st') →
    P st → for_each body i l st = (st', s) → P st'.
Proof.
  induction l as [|x l IH]; intros i st st' s Hbody HP Hrun.
  - by injection Hrun as <- <-.
  - cbn [for_each] in Hrun. destruct (body i x st) as [st1 s1] eqn:E.
    assert (P st1) as HP1.
    { apply (Hbody 0 x st st1 s1); [done|done|by rewrite Nat.add_0_r]. }
    destruct s1; cbn [and_then] in Hrun.
    + apply (IH (S i) st1 st' s); [|done|done].
      intros k y st2 st3 s3 Hk. replace (S i + k) with (i + S k) by lia.
      by apply (Hbody (S k)).
    + by injection Hrun as <- <-.
    + by injection Hrun as <- <-.
Qed.

Lemma and_then_inv (P : page_state → Prop) (r : page_state * signal)
    (k : page_state → page_state * signal) (st' : page_state) (s : signal) :
  (∀ st1 s1, r = (st1, s1) → P st1) →
  (∀ st1 st' s, P st1 → k st1 = (st', s) → P st') →
  r >>> k = (st', s) → P st'.
Proof.
  destruct r as [st1 [| |e]]; cbn [and_then]; intros Hr Hk Hrun.
  - eapply Hk; [by eapply Hr|exact Hrun].
  - injection Hrun as <- <-. by eapply Hr.
  - injection Hrun as <- <-. by eapply Hr.
Qed.

(** A property of the state of the page that showing a widget keeps, and
    that, in admin mode, holds after every save and every added resource,
    holds at the end of every part of the script. *)
Section page_invariant.
Context `{PyLib}.
Variable basename : string → string.
Variable P : page_state → Prop.
Variable admin : bool.
Hypothesis P_show : ∀ w st, P st → P (show w st).
Hypothesis P_saved : ∀ manifest fs message st,
  admin = true → P st → P (saved manifest fs message st).1.
Hypothesis P_added : ∀ f now st resource manifest fs,
  admin = true → P st →
  add_resource_form f now (mem st) (disk st)
  = Ok (ResourceAdded resource manifest fs) →
  P {| shown := shown st; mem := manifest; disk := fs |}.

Ltac admin_cases Ha :=
  destruct (decide (admin = true)) as [Ha|Ha];
  [|apply not_true_is_false in Ha]; rewrite Ha.

Lemma saved_inv (manifest : Manifest) (fs : filesystem) (message : widget)
    (st st' : page_state) (s : signal) :
  admin = true → P st → saved manifest fs message st = (st', s) → P st'.
Proof.
  intros Ha HP Hrun. apply (f_equal fst) in Hrun. cbn [fst] in Hrun.
  subst st'. by apply P_saved.
Qed.

Lemma year_controls_inv (c : control_input) (yi : nat) (year : Year)
    (st st' : page_state) (s : signal) :
  admin = true → P st → year_controls c yi year st = (st', s) → P st'.
Proof.
  intros Ha HP. unfold year_controls. case_bool_decide; [by apply saved_inv|].
  destruct (delete_clicked c); [|by intros [= <- <-]].
  destruct (py_remove year (years (mem st))); [by apply saved_inv|].
  by intros [= <- <-].
Qed.

Lemma branch_controls_inv (c : control_input) (yi : nat) (year : Year)
    (bi : nat) (branch : Branch) (st st' : page_state) (s : signal) :
  admin = true → P st → branch_controls c yi year bi branch st = (st', s) → P st'.
Proof.
  intros Ha HP. unfold branch_controls. case_bool_decide; [by apply saved_inv|].
  destruct (delete_clicked c); [|by intros [= <- <-]].
  destruct (py_remove branch (branches year)); [by apply saved_inv|].
  by intros [= <- <-].
Qed.

Lemma subject_controls_inv (c : control_input) (yi : nat) (year : Year)
    (bi : nat) (branch : Branch) (si : nat) (subject : Subject)
    (st st' : page_state) (s : signal) :
  admin = true → P st →
  subject_controls c yi year bi branch si subject st = (st', s) → P st'.
Proof.
  intros Ha HP. unfold subject_controls. case_bool_decide; [by apply saved_inv|].
  destruct (delete_clicked c); [|by intros [= <- <-]].
  destruct (py_remove subject (subjects branch)); [by apply saved_inv|].
  by intros [= <- <-].
Qed.

Lemma render_resource_inv (res : Resource) (st st' : page_state) (s : signal) :
  P st → render_resource basename res st = (st', s) → P st'.
Proof.
  intros HP. unfold render_resource.
  repeat case_match; intros [= <- <-]; auto.
Qed.

(** In the loop the resource of the button is one of the subject, so
    that [remove] finds it. *)
Lemma resource_controls_inv (c : control_input) (yi : nat) (year : Year)
    (bi : nat) (branch : Branch) (si : nat) (subject : Subject)
    (ri : nat) (res : Resource) (st st' : page_state) (s : signal) :
  admin = true → res ∈ resources subject → P st →
  resource_controls c yi year bi branch si subject ri res st = (st', s) → P st'.
Proof.
  intros Ha Hin HP. unfold resource_controls.
  destruct (title res); [|by intros [= <- <-]].
  case_bool_decide; [by apply saved_inv|].
  destruct (delete_clicked c); [|by intros [= <- <-]].
  destruct (remove_backing_file res (disk st)); [|by intros [= <- <-]].
  destruct (py_remove_split res (resources subject) Hin) as (? & ? & _ & _ & ->).
  by apply saved_inv.
Qed.

Lemma resource_block_inv (c : control_input) (yi : nat) (year : Year)
    (bi : nat) (branch : Branch) (si : nat) (subject : Subject)
    (ri : nat) (res : Resource) (st st' : page_state) (s : signal) :
  res ∈ resources subject → P st →
  resource_block basename admin c yi year bi branch si subject ri res st = (st', s) →
  P st'.
Proof.
  intros Hin HP. unfold resource_block. apply and_then_inv.
  - intros st1 s1. by apply render_resource_inv.
  - intros st1 st2 s2 HP1. admin_cases Ha.
    + by apply resource_controls_inv.
    + by intros [= <- <-].
Qed.

Lemma browse_page_inv (inputs : browse_input) (st st' : page_state) (s : signal) :
  P st → browse_page basename admin inputs st = (st', s) → P st'.
Proof.
  intros HP. unfold browse_page.
  apply (for_each_inv P); [|by apply P_show].
  intros yi year st1 st2 s2 _ HP1. cbv beta zeta. apply and_then_inv.
  { intros st3 s3. admin_cases Ha.
    - apply year_controls_inv; [done|by apply P_show].
    - intros [= <- <-]. by apply P_show. }
  clear st1 st2 s2 HP1. intros st1 st2 s2 HP1.
  apply (for_each_inv P); [|done].
  clear st1 st2 s2 HP1. intros bi branch st1 st2 s2 _ HP1. cbv beta zeta.
  apply and_then_inv.
  { intros st3 s3. admin_cases Ha.
    - apply branch_controls_inv; [done|by apply P_show].
    - intros [= <- <-]. by apply P_show. }
  clear st1 st2 s2 HP1. intros st1 st2 s2 HP1.
  apply (for_each_inv P); [|done].
  clear st1 st2 s2 HP1. intros si subject st1 st2 s2 _ HP1. cbv beta zeta.
  apply and_then_inv.
  { intros st3 s3. admin_cases Ha.
    - apply subject_controls_inv; [done|by apply P_show].
    - intros [= <- <-]. by apply P_show. }
  clear st1 st2 s2 HP1. intros st1 st2 s2 HP1.
  apply (for_each_inv P); [|done].
  clear st1 st2 s2 HP1. intros ri res st1 st2 s2 Hres HP1.
  apply resource_block_inv; [|done]. by eapply list_elem_of_lookup_2.
Qed.

Lemma render_result_inv (r : FlatRecord) (st st' : page_state) (s : signal) :
  P st → render_result basename r st = (st', s) → P st'.
Proof.
  intros HP. unfold render_result.
  repeat case_match; intros [= <- <-]; auto.
Qed.

Lemma search_page_inv (q : string) (st st' : page_state) (s : signal) :
  P st → search_page basename q st = (st', s) → P st'.
Proof.
  intros HP. unfold search_page.
  destruct (search_comprehension _ _) as [[|r results]|e].
  - intros [= <- <-]. auto.
  - apply (for_each_inv P); [|by apply P_show].
    intros k x st1 st2 s2 _. apply render_result_inv.
  - intros [= <- <-]. auto.
Qed.

Lemma display_section_inv (q : string) (inputs : browse_input)
    (st st' : page_state) (s : signal) :
  P st → display_section basename q admin inputs st = (st', s) → P st'.
Proof.
  intros HP. unfold display_section. destruct (truthy q).
  - apply search_page_inv. by apply P_show.
  - apply browse_page_inv. by apply P_show.
Qed.

Lemma controls_column_inv (download_clicked : bool)
    (st st' : page_state) (s : signal) :
  P st → controls_column admin download_clicked st = (st', s) → P st'.
Proof.
  intros HP. unfold controls_column.
  repeat case_match; intros [= <- <-]; auto.
Qed.

Lemma form_section_inv (f : form) (now : string)
    (st st' : page_state) (s : signal) :
  P st → form_section admin f now st = (st', s) → P st'.
Proof.
  intros HP. unfold form_section. admin_cases Ha; [|by intros [= <- <-]].
  destruct (add_resource_form f now _ _) as [[|message|resource manifest fs]|e] eqn:E;
    intros [= <- <-]; auto.
  apply P_show.
  apply (P_added f now (show (StMarkdown "## ➕ Add New Resource") st)
           resource manifest fs); auto.
Qed.

Lemma script_inv (i : script_input) (fs : filesystem)
    (st : page_state) (s : signal) :
  admin_mode i = admin →
  (∀ manifest fs1, load_manifest fs = (Ok manifest, fs1) →
     P {| shown := [StTitle "📚 Engineering Study Materials"];
          mem := manifest; disk := fs1 |}) →
  script basename i fs = Ran st s → P st.
Proof.
  intros Ha Hstart. unfold script.
  destruct (load_manifest fs) as [[manifest|e] fs1]; [|done].
  specialize (Hstart manifest fs1 eq_refl). rewrite Ha.
  destruct (_ >>> _) as [st0 s0] eqn:E. intros [= <- <-]. revert E.
  apply and_then_inv; [|intros st1 st2 s2 HP1 [= <- <-]; auto].
  intros st1 s1. apply and_then_inv; [|intros ? ? ?; apply display_section_inv].
  clear st1 s1. intros st1 s1.
  apply and_then_inv; [|intros ? ? ?; apply form_section_inv].
  clear st1 s1. intros st1 s1. by apply controls_column_inv.
Qed.
End page_invariant.

(** X18. Without admin mode a run changes nothing after
    [load_manifest]: whatever the query, the download button and the
    inputs of the page, and however the run ends, the manifest in memory
    is the loaded one and the storage is the one [ensure_dirs] left. *)
Theorem viewer_run_changes_nothing `{PyLib} (basename : string → string)
    (i : script_input) (fs : filesystem) :
  admin_mode i = false →
  match script basename i fs with
  | LoadFailed e fs1 => load_manifest fs = (Raise e, fs1)
  | Ran st s =>
      load_manifest fs = (Ok (mem st), disk st) ∧ disk st = ensure_dirs fs
  end.
Proof.
  intros Hadmin. destruct (script basename i fs) as [e fs1|st s] eqn:E.
  - unfold script in E. destruct (load_manifest fs) as [[manifest|e'] fs0].
    + by destruct (_ >>> _).
    + by injection E as <- <-.
  - revert E.
    apply (script_inv basename
             (λ st, load_manifest fs = (Ok (mem st), disk st)
                    ∧ disk st = ensure_dirs fs) false); try done.
    intros manifest fs1 Hload. split; [done|]. cbn [disk].
    unfold load_manifest in Hload. by repeat case_match; simplify_eq.
Qed.

Lemma viewer_run_changes_nothing_witness :
  admin_mode viewer_input = false ∧
  match @script ref_lib id viewer_input empty_storage with
  | LoadFailed e fs1 => @load_manifest ref_lib empty_storage = (Raise e, fs1)
  | Ran st s =>
      @load_manifest ref_lib empty_storage = (Ok (mem st), disk st)
      ∧ disk st = @ensure_dirs ref_lib empty_storage
  end.
Proof.
  split; [reflexivity|].
  exact (@viewer_run_changes_nothing ref_lib id viewer_input empty_storage eq_refl).
Defined.





(** ** The search view *)

Lemma render_result_next `{PyLib} (basename : string → string)
    (r : FlatRecord) (st : page_state) :
  (∃ st', render_result basename r st = (st', Next)) ↔ readable (disk st) r.
Proof.
  unfold render_result, readable.
  destruct (decide (f_type r = Some "link")) as [Hlink|Hlink].
  { split; [by left|]. intros _. by eexists. }
  destruct (f_path r) as [p|].
  - cbn [show disk]. destruct (files (disk st) !! p) as [data|] eqn:Hp.
    + split; [|intros _; by eexists]. intros _. right. exists p. by rewrite Hp.
    + split; [by intros [? [=]]|]. intros [?|(p' & [= <-] & [? Hdata])]; [done|].
      congruence.
  - split; [by intros [? [=]]|]. by intros [?|(p' & [=] & _)].
Qed.

Lemma render_results_next `{PyLib} (basename : string → string)
    (l : list FlatRecord) :
  ∀ i st,
    (∃ st', for_each (λ _, render_result basename) i l st = (st', Next))
    ↔ Forall (readable (disk st)) l.
Proof.
  induction l as [|r l IH]; intros i st; cbn [for_each].
  { split; [done|]. intros _. by eexists. }
  pose proof (render_result_next basename r st) as Hr.
  destruct (render_result basename r st) as [st1 s1] eqn:E.
  assert (disk st1 = disk st) as Hdisk.
  { by apply (render_result_inv basename (λ x, disk x = disk st) ltac:(done)
                r st st1 s1). }
  rewrite Forall_cons, <- Hr. destruct s1; cbn [and_then].
  - rewrite IH, Hdisk. split; [|tauto]. intros Hl. split; [by eexists|done].
  - split; [by intros [? [=]]|]. by intros [[? [=]] _].
  - split; [by intros [? [=]]|]. by intros [[? [=]] _].
Qed.

(** X20. The search view.  It never changes the manifest or the storage.
    In a manifest whose resources have a title, it renders all its
    results exactly when every record that matches the query is a link
    or has a path at which a file is stored.  When no record matches,
    it shows [No results found.] *)
Theorem search_page_renders `{PyLib} (basename : string → string)
    (q : string) (st : page_state) :
  Forall (λ r, is_Some (f_title r)) (flatten_resources (mem st)) →
  let results := filter (spec_matches q) (flatten_resources (mem st)) in
  (∀ st' s, search_page basename q st = (st', s) →
            mem st' = mem st ∧ disk st' = disk st) ∧
  ((∃ st', search_page basename q st = (st', Next))
   ↔ Forall (readable (disk st)) results) ∧
  (results = [] →
   search_page basename q st
   = (show (StInfo "No results found.")
        (show (StMarkdown ("### 🔍 Search Results for: `" +:+ q +:+ "`")) st),
      Next)).
Proof.
  intros Htitles results. split; [|split].
  - intros st' s.
    by apply (search_page_inv basename
                (λ x, mem x = mem st ∧ disk x = disk st)).
  - unfold search_page. cbv zeta. set (st1 := show _ st).
    change (mem st1) with (mem st). rewrite search_comprehension_filter by done.
    fold results. destruct results as [|r results].
    + split; [done|]. intros _. by eexists.
    + apply (render_results_next basename (r :: results) 0 st1).
  - intros Hnone. unfold search_page. cbv zeta. set (st1 := show _ st).
    change (mem st1) with (mem st).
    rewrite search_comprehension_filter by done. fold results. by rewrite Hnone.
Qed.

Lemma search_page_renders_witness :
  Forall (λ r, is_Some (f_title r)) (flatten_resources (mem sample_page)) ∧
  let results :=
    filter (@spec_matches ref_lib "ece") (flatten_resources (mem sample_page)) in
  (∀ st' s, @search_page ref_lib id "ece" sample_page = (st', s) →
            mem st' = mem sample_page ∧ disk st' = disk sample_page) ∧
  ((∃ st', @search_page ref_lib id "ece" sample_page = (st', Next))
   ↔ Forall (readable (disk sample_page)) results) ∧
  (results = [] →
   @search_page ref_lib id "ece" sample_page
   = (show (StInfo "No results found.")
        (show (StMarkdown ("### 🔍 Search Results for: `" +:+ "ece" +:+ "`"))
           sample_page),
      Next)).
Proof.
  assert (Forall (λ r, is_Some (f_title r)) (flatten_resources (mem sample_page)))
    as Ht by (repeat constructor; by eexists).
  split; [exact Ht|].
  exact (@search_page_renders ref_lib id "ece" sample_page Ht).
Defined.

(** ** Adding, then deleting *)





(** ** The file branch of the add form *)




(** ** The download button of the controls column *)

(** X23. The download serves the document the run loaded.  When the
    download button of the controls column is pressed, the run never
    fails on the manifest file: the page shows a download button whose
    data is the manifest document as [load_manifest] read it, the
    document that parses to the loaded manifest.  A resource that the
    form adds in the same run is not in that document, the column being
    drawn before the form is handled. *)
Theorem download_serves_loaded_document `{PyLib} (basename : string → string)
    (i : script_input) (fs : filesystem) (st : page_state) (s : signal) :
  download_clicked i = true → script basename i fs = Ran st s →
  ∃ doc manifest,
    files (ensure_dirs fs) !! MANIFEST_FILE = Some doc ∧
    json_load doc = Some manifest ∧
    load_manifest fs = (Ok manifest, ensure_dirs fs) ∧
    StDownloadButton "Click to download manifest.json" doc "manifest.json"
    ∈ shown st.
Proof.
  intros Hclick. unfold script, load_manifest.
  destruct (files (ensure_dirs fs) !! MANIFEST_FILE) as [doc|] eqn:Hdoc; [|done].
  destruct (json_load doc) as [manifest|] eqn:Hload; [|done].
  destruct (_ >>> _) as [st0 s0] eqn:E. intros [= <- <-].
  exists doc, manifest. split; [done|]. split; [done|]. split; [done|].
  revert E. unfold controls_column. rewrite Hclick.
  set (w := StDownloadButton "Click to download manifest.json" doc "manifest.json").
  assert (∀ w' st1, w ∈ shown st1 → w ∈ shown (show w' st1)) as Hshow.
  { intros w' st1 Hin. cbn [show shown]. apply elem_of_app. by left. }
  assert (∀ manifest1 fs1 message st1,
            admin_mode i = true → w ∈ shown st1 →
            w ∈ shown (saved manifest1 fs1 message st1).1) as Hsaved.
  { intros manifest1 fs1 message st1 _ Hin. cbn [saved fst show shown].
    apply elem_of_app. by left. }
  destruct (admin_mode i) eqn:Hadmin; cbn [show disk];
    rewrite Hdoc; cbn [and_then]; fold w.
  - apply (and_then_inv (λ st, w ∈ shown st)); [|intros ? ? ? ? [= <- <-]; auto].
    intros st2 s2. apply (and_then_inv (λ st, w ∈ shown st)).
    + intros st3 s3.
      apply (form_section_inv (λ st, w ∈ shown st) true); [done|by auto|].
      cbn [show shown]. apply elem_of_app. right. by left.
    + intros st3 st4 s4.
      by apply (display_section_inv basename (λ st, w ∈ shown st) true).
  - apply (and_then_inv (λ st, w ∈ shown st)); [|intros ? ? ? ? [= <- <-]; auto].
    intros st2 s2. unfold form_section. cbn [and_then].
    apply (display_section_inv basename (λ st, w ∈ shown st) false); [done..|].
    cbn [show shown]. apply elem_of_app. right. by left.
Qed.

Lemma download_serves_loaded_document_witness :
  download_clicked admin_input = true ∧
  match @script ref_lib id admin_input empty_storage with
  | Ran st s =>
      ∃ doc manifest,
        files (@ensure_dirs ref_lib empty_storage) !! MANIFEST_FILE = Some doc ∧
        Ref.load doc = Some manifest ∧
        @load_manifest ref_lib empty_storage
        = (Ok manifest, @ensure_dirs ref_lib empty_storage) ∧
        StDownloadButton "Click to download manifest.json" doc "manifest.json"
        ∈ shown st
  | LoadFailed _ _ => False
  end.
Proof.
  split; [reflexivity|].
  destruct (@script ref_lib id admin_input empty_storage) as [e fs1|st s] eqn:E.
  - vm_compute in E. discriminate.
  - exact (@download_serves_loaded_document ref_lib id admin_input empty_storage
             st s eq_refl E).
Defined.
